(** * Telecom churn prediction: the feature pipeline and the risk response

    A shallow embedding of [preprocess_input] (src/preprocessing.py) and of
    the scoring part of the form handler (src/app.py), with the properties
    of the specification stated against them.

    Modelling decisions.
    - A pandas [DataFrame] with one row is an association list from column
      labels to cells, in column order.  Labels are unique (the caller
      builds the frame from a Python dict), [df[c] = v] overwrites in place
      or appends at the end as pandas does.
    - A cell is a Python string or a number.  Numbers are [int64] values
      (as [Z], addition wraps around) or [float64] values.
    - [float64] is modelled by exact rationals extended with NaN and the two
      infinities: the rounding of arithmetic results, overflow to infinity
      and the sign of zero are abstracted away.  Comparisons and the
      division by zero follow IEEE 754 (any comparison with NaN is false,
      x/0 is an infinity or NaN).  A float literal of the source denotes
      the exact value of its [float64]: the integers are themselves, [0.4]
      and [0.7] are [float_0_4] and [float_0_7].
    - Python exceptions are an error monad.
    - The fitted scaler, the parser behind [pd.to_numeric] and Python's
      [str] on numbers belong to external libraries or artifacts and are
      Section variables. *)

From Stdlib Require Import ZArith QArith Qreduction Bool List String Ascii.
From Stdlib Require Import Lia Lqa Qabs Arith.
Import ListNotations.
Local Open Scope string_scope.
Local Open Scope Z_scope.

(* ================================================================= *)
(** ** Python exceptions as an error monad *)

Inductive exn : Type :=
| KeyError (label : string)
| ValueError (msg : string)
| TypeError (msg : string).

Inductive result (A : Type) : Type :=
| Ok (a : A)
| Raise (e : exn).
Arguments Ok {A} a.
Arguments Raise {A} e.

Definition bind {A B : Type} (m : result A) (f : A -> result B) : result B :=
  match m with
  | Ok a => f a
  | Raise e => Raise e
  end.

Notation "x <- m ;; k" := (bind m (fun x => k))
  (at level 61, m at next level, right associativity).
Notation "' p <- m ;; k" := (bind m (fun p => k))
  (at level 61, p pattern, m at next level, right associativity).

Definition is_ok {A : Type} (m : result A) : bool :=
  match m with Ok _ => true | Raise _ => false end.

(* ================================================================= *)
(** ** Numbers *)

(** [float64], with rounding abstracted. *)
Inductive float64 : Type :=
| FNum (q : Q)
| FNaN
| FPosInf
| FNegInf.

(** A numeric cell: numpy [int64] or [float64]. *)
Inductive num : Type :=
| NInt (z : Z)
| NFloat (f : float64).

(** A cell of an object or numeric column. *)
Inductive pyval : Type :=
| VStr (s : string)
| VNum (n : num).

Definition NaN : num := NFloat FNaN.

Module Float.

Definition of_Z (z : Z) : float64 := FNum (inject_Z z).

Definition is_nan (f : float64) : bool :=
  match f with FNaN => true | _ => false end.

Definition add (a b : float64) : float64 :=
  match a, b with
  | FNaN, _ | _, FNaN => FNaN
  | FNum x, FNum y => FNum (Qred (x + y))
  | FPosInf, FNegInf | FNegInf, FPosInf => FNaN
  | FPosInf, _ | _, FPosInf => FPosInf
  | FNegInf, _ | _, FNegInf => FNegInf
  end.

Definition neg (a : float64) : float64 :=
  match a with
  | FNum x => FNum (Qred (- x))
  | FNaN => FNaN
  | FPosInf => FNegInf
  | FNegInf => FPosInf
  end.

(** IEEE division; a zero divisor is [+0.0]. *)
Definition div (a b : float64) : float64 :=
  match a, b with
  | FNaN, _ | _, FNaN => FNaN
  | FNum x, FNum y =>
      if Qeq_bool y 0 then
        if Qeq_bool x 0 then FNaN
        else if Qle_bool 0 x then FPosInf else FNegInf
      else FNum (Qred (x / y))
  | FNum _, _ => FNum 0
  | _, FNum y => if Qle_bool 0 y then a else neg a
  | _, _ => FNaN
  end.

Definition leb (a b : float64) : bool :=
  match a, b with
  | FNaN, _ | _, FNaN => false
  | FNum x, FNum y => Qle_bool x y
  | FNegInf, _ | _, FPosInf => true
  | _, _ => false
  end.

Definition eqb (a b : float64) : bool :=
  match a, b with
  | FNum x, FNum y => Qeq_bool x y
  | FPosInf, FPosInf | FNegInf, FNegInf => true
  | _, _ => false
  end.

(** [a < b]: not NaN, [a <= b] and not equal. *)
Definition ltb (a b : float64) : bool := leb a b && negb (eqb a b).
Definition gtb (a b : float64) : bool := ltb b a.
Definition geb (a b : float64) : bool := leb b a.

Definition sub (a b : float64) : float64 := add a (neg b).



End Float.

Module Int64.

Definition modulus : Z := 2 ^ 64.
Definition min_signed : Z := - 2 ^ 63.
Definition max_signed : Z := 2 ^ 63 - 1.

(** Two's complement wrap-around of numpy [int64] arithmetic. *)
Definition wrap (z : Z) : Z := (z - min_signed) mod modulus + min_signed.

Definition in_range (z : Z) : Prop := min_signed <= z <= max_signed.

End Int64.

(** numpy arithmetic and comparison on scalars and one-row columns. *)
Module Np.

Definition to_float (n : num) : float64 :=
  match n with
  | NInt z => Float.of_Z z
  | NFloat f => f
  end.

Definition add (a b : num) : num :=
  match a, b with
  | NInt x, NInt y => NInt (Int64.wrap (x + y))
  | _, _ => NFloat (Float.add (to_float a) (to_float b))
  end.

(** [/] is true division: the result is always a float. *)
Definition truediv (a b : num) : num :=
  NFloat (Float.div (to_float a) (to_float b)).

Definition leb (a b : num) : bool :=
  match a, b with
  | NInt x, NInt y => x <=? y
  | _, _ => Float.leb (to_float a) (to_float b)
  end.

Definition gtb (a b : num) : bool :=
  match a, b with
  | NInt x, NInt y => x >? y
  | _, _ => Float.gtb (to_float a) (to_float b)
  end.

Definition eqb (a b : num) : bool :=
  match a, b with
  | NInt x, NInt y => x =? y
  | _, _ => Float.eqb (to_float a) (to_float b)
  end.

(** [bool.astype(int)] and [int(bool)]. *)
Definition of_bool (b : bool) : num := NInt (if b then 1 else 0).

Definition isna (v : pyval) : bool :=
  match v with
  | VNum (NFloat FNaN) => true
  | _ => false
  end.

(** The rational value of a finite number. *)
Definition value (n : num) : option Q :=
  match n with
  | NInt z => Some (inject_Z z)
  | NFloat (FNum q) => Some q
  | NFloat _ => None
  end.

End Np.

(* ================================================================= *)
(** ** One-row data frames *)

Definition frame : Type := list (string * pyval).

Module DataFrame.

(** [df.columns] *)
Definition columns (df : frame) : list string := map fst df.

Fixpoint lookup (c : string) (df : frame) : option pyval :=
  match df with
  | [] => None
  | (k, v) :: rest => if String.eqb k c then Some v else lookup c rest
  end.

(** [c in df.columns] *)
Definition has_col (c : string) (df : frame) : bool :=
  existsb (String.eqb c) (columns df).

(** [df[c]], a [KeyError] when the label is absent. *)
Definition getitem (df : frame) (c : string) : result pyval :=
  match lookup c df with
  | Some v => Ok v
  | None => Raise (KeyError c)
  end.

(** [df[c] = v]: overwrite in place, or append a new last column. *)
Fixpoint setitem (df : frame) (c : string) (v : pyval) : frame :=
  match df with
  | [] => [(c, v)]
  | (k, x) :: rest =>
      if String.eqb k c then (k, v) :: rest else (k, x) :: setitem rest c v
  end.

(** [df.drop(cols, axis=1)] *)
Definition drop (cols : list string) (df : frame) : frame :=
  filter (fun kv => negb (existsb (String.eqb (fst kv)) cols)) df.

(** [df[cols]]: the listed columns, in the listed order. *)
Fixpoint select (cols : list string) (df : frame) : result frame :=
  match cols with
  | [] => Ok []
  | c :: rest =>
      v <- getitem df c ;;
      sel <- select rest df ;;
      Ok ((c, v) :: sel)
  end.

(** A numeric read of a cell: arithmetic and ordering on a string cell
    raise [TypeError]. *)
Definition get_num (df : frame) (c : string) : result num :=
  v <- getitem df c ;;
  match v with
  | VNum n => Ok n
  | VStr _ => Raise (TypeError "unsupported operand type: str")
  end.

End DataFrame.

Import DataFrame.

(** [x == k] on a cell and an integer literal; a string is never equal. *)
Definition py_eq (v : pyval) (k : Z) : bool :=
  match v with
  | VNum n => Np.eqb n (NInt k)
  | VStr _ => false
  end.

Definition pyval_eqb (a b : pyval) : bool :=
  match a, b with
  | VStr s, VStr t => String.eqb s t
  | VNum x, VNum y => Np.eqb x y
  | _, _ => false
  end.

(** [Series.map(d)] on one cell: a value that is not a key becomes NaN. *)
Fixpoint dict_get (d : list (string * Z)) (s : string) : option Z :=
  match d with
  | [] => None
  | (k, z) :: rest => if String.eqb k s then Some z else dict_get rest s
  end.

Definition map_values (d : list (string * Z)) (v : pyval) : num :=
  match v with
  | VStr s => match dict_get d s with Some z => NInt z | None => NaN end
  | VNum _ => NaN
  end.

(** [Series.replace(old, new)] on one cell. *)
Definition replace_value (old new : string) (v : pyval) : pyval :=
  match v with
  | VStr s => if String.eqb s old then VStr new else v
  | VNum _ => v
  end.

(** [df[c] = df[c].map(d)] *)
Definition map_col (df : frame) (c : string) (d : list (string * Z))
  : result frame :=
  v <- getitem df c ;;
  Ok (setitem df c (VNum (map_values d v))).

(** [df[c] = df[c].replace(old, new)] *)
Definition replace_col (df : frame) (c : string) (old new : string)
  : result frame :=
  v <- getitem df c ;;
  Ok (setitem df c (replace_value old new v)).

(** [1 if c in df.columns and df[c].iloc[0] == 1 else 0] *)
Definition indicator_set (df : frame) (c : string) : Z :=
  if has_col c df
     && match lookup c df with Some v => py_eq v 1 | None => false end
  then 1 else 0.

(** Python's short-circuit [and] between two tests that may raise. *)
Definition and_then (a b : result bool) : result bool :=
  x <- a ;; if x then b else Ok false.

(** [df[c].iloc[0] == k] *)
Definition cell_eq (df : frame) (c : string) (k : Z) : result bool :=
  v <- getitem df c ;; Ok (py_eq v k).

(* ================================================================= *)
(** ** pandas functions that depend on library internals *)

Section Pandas.

(** The number parser behind [pd.to_numeric] on a string cell;
    [None] when the string is not a number. *)
Variable parse_number : string -> option num.

(** Python's [str] on a number, used to label a numeric dummy level. *)
Variable py_str : num -> string.

Definition to_numeric (v : pyval) : result num :=
  match v with
  | VNum n => Ok n
  | VStr s =>
      match parse_number s with
      | Some n => Ok n
      | None => Raise (ValueError "Unable to parse string")
      end
  end.

(** [df[c] = pd.to_numeric(df[c])] *)
Definition to_numeric_col (df : frame) (c : string) : result frame :=
  v <- getitem df c ;;
  n <- to_numeric v ;;
  Ok (setitem df c (VNum n)).

(** *** [pd.get_dummies] *)

Definition is_str (v : pyval) : bool :=
  match v with VStr _ => true | VNum _ => false end.

Definition level_leb (a b : pyval) : bool :=
  match a, b with
  | VStr s, VStr t => String.leb s t
  | VNum x, VNum y => Np.leb x y
  | _, _ => true
  end.

Fixpoint insert_level (x : pyval) (l : list pyval) : list pyval :=
  match l with
  | [] => [x]
  | y :: rest =>
      if level_leb x y then x :: l else y :: insert_level x rest
  end.

Definition sort_levels (l : list pyval) : list pyval :=
  fold_right insert_level [] l.

Fixpoint unique (l : list pyval) (seen : list pyval) : list pyval :=
  match l with
  | [] => []
  | x :: rest =>
      if existsb (pyval_eqb x) seen then unique rest seen
      else x :: unique rest (x :: seen)
  end.

(** The levels of a column: its distinct non-null values, sorted when
    they are mutually comparable, in order of appearance otherwise. *)
Definition factorize (data : list pyval) : list pyval :=
  let lv := unique (filter (fun v => negb (Np.isna v)) data) [] in
  if forallb is_str lv || forallb (fun v => negb (is_str v)) lv
  then sort_levels lv else lv.

Definition level_label (v : pyval) : string :=
  match v with
  | VStr s => s
  | VNum n => py_str n
  end.

(** One indicator column per level, named [prefix_level]; with
    [drop_first] the first level has no column, and a column with a
    single level yields no indicator at all. *)
Definition get_dummies_1d (data : list pyval) (prefix : string)
           (drop_first : bool) : list (string * list num) :=
  let levels := factorize data in
  if Nat.eqb (List.length levels) 0 then []
  else if drop_first && Nat.eqb (List.length levels) 1 then []
  else
    let dummy_cols :=
      map (fun l => (prefix ++ "_" ++ level_label l,
                     map (fun v => Np.of_bool (pyval_eqb v l)) data))
          levels in
    if drop_first then tl dummy_cols else dummy_cols.

(** [pd.get_dummies(df, columns=cols, drop_first=..., dtype=int)] on a
    one-row frame: the other columns first, then the indicator columns
    of each encoded column. *)
Definition get_dummies (df : frame) (cols : list string)
           (drop_first : bool) : result frame :=
  data_to_encode <- select cols df ;;
  let dummies :=
    flat_map
      (fun cv : string * pyval =>
         map (fun d : string * list num =>
                (fst d, VNum (hd (NInt 0) (snd d))))
             (get_dummies_1d [snd cv] (fst cv) drop_first))
      data_to_encode in
  Ok (drop cols df ++ dummies)%list.

End Pandas.

(* ================================================================= *)
(** ** src/preprocessing.py *)

Definition assign (df : frame) (c : string) (n : num) : frame :=
  setitem df c (VNum n).

Definition yes_no : list (string * Z) := [("Yes", 1); ("No", 0)].

(** Expected columns from training, in exact order. *)
Definition expected_columns : list string :=
  [ "gender"; "SeniorCitizen"; "Partner"; "Dependents"; "tenure";
    "PhoneService"; "MultipleLines"; "OnlineSecurity"; "OnlineBackup";
    "DeviceProtection"; "TechSupport"; "StreamingTV"; "StreamingMovies";
    "Contract"; "PaperlessBilling"; "MonthlyCharges"; "TotalCharges";
    "IsNewCustomer"; "IsEstablished"; "IsLoyalCustomer";
    "ChargePerTenureMonth"; "IsHighSpender"; "ChargeTenureRatio";
    "TotalServices"; "ServiceDensity"; "HasMinimalServices";
    "HighRiskProfile"; "SeniorNoSupport"; "SingleNoFamily";
    "NewHighSpender"; "PaperlessElectronicCheck"; "HasAutoPay";
    "FiberNoAddons"; "InternetService_Fiber optic"; "InternetService_No";
    "PaymentMethod_Credit card (automatic)"; "PaymentMethod_Electronic check";
    "PaymentMethod_Mailed check" ].

Definition cols_to_scale : list string :=
  [ "tenure"; "MonthlyCharges"; "TotalCharges" ].

(** 1. Binary encoding *)
Definition binary_encoding (df : frame) : result frame :=
  df <- map_col df "gender" [("Female", 0); ("Male", 1)] ;;
  df <- map_col df "Partner" yes_no ;;
  df <- map_col df "Dependents" yes_no ;;
  df <- map_col df "PhoneService" yes_no ;;
  map_col df "PaperlessBilling" yes_no.

(** 2. Handle the "no service" categories, then encode to binary *)
Definition handle_no_service (df : frame) : result frame :=
  df <- replace_col df "MultipleLines" "No phone service" "No" ;;
  df <- replace_col df "OnlineSecurity" "No internet service" "No" ;;
  df <- replace_col df "OnlineBackup" "No internet service" "No" ;;
  df <- replace_col df "DeviceProtection" "No internet service" "No" ;;
  df <- replace_col df "TechSupport" "No internet service" "No" ;;
  df <- replace_col df "StreamingTV" "No internet service" "No" ;;
  df <- replace_col df "StreamingMovies" "No internet service" "No" ;;
  df <- map_col df "MultipleLines" yes_no ;;
  df <- map_col df "OnlineSecurity" yes_no ;;
  df <- map_col df "OnlineBackup" yes_no ;;
  df <- map_col df "DeviceProtection" yes_no ;;
  df <- map_col df "TechSupport" yes_no ;;
  df <- map_col df "StreamingTV" yes_no ;;
  map_col df "StreamingMovies" yes_no.

(** 3. Ordinal encoding of the contract *)
Definition ordinal_encoding (df : frame) : result frame :=
  map_col df "Contract"
          [("Month-to-month", 0); ("One year", 1); ("Two year", 2)].

(** 5. Feature engineering, after the numeric columns are ensured:
    everything from the tenure flags to [FiberNoAddons]. *)
Definition derived_features (df : frame) : result frame :=
  (* Tenure-based features *)
  tenure <- get_num df "tenure" ;;
  let df := assign df "IsNewCustomer" (Np.of_bool (Np.leb tenure (NInt 12))) in
  tenure <- get_num df "tenure" ;;
  let df := assign df "IsEstablished"
              (Np.of_bool (Np.gtb tenure (NInt 12)
                           && Np.leb tenure (NInt 24))) in
  tenure <- get_num df "tenure" ;;
  let df := assign df "IsLoyalCustomer"
              (Np.of_bool (Np.gtb tenure (NInt 48))) in
  (* Charge-based features *)
  total <- get_num df "TotalCharges" ;;
  tenure <- get_num df "tenure" ;;
  let df := assign df "ChargePerTenureMonth"
              (Np.truediv total (Np.add tenure (NInt 1))) in
  monthly <- get_num df "MonthlyCharges" ;;
  let df := assign df "IsHighSpender"
              (Np.of_bool (Np.gtb monthly (NInt 70))) in
  monthly <- get_num df "MonthlyCharges" ;;
  tenure <- get_num df "tenure" ;;
  let df := assign df "ChargeTenureRatio"
              (Np.truediv monthly (Np.add tenure (NInt 1))) in
  (* Service bundle features *)
  let has_internet_no := indicator_set df "InternetService_No" in
  phone <- get_num df "PhoneService" ;;
  security <- get_num df "OnlineSecurity" ;;
  backup <- get_num df "OnlineBackup" ;;
  protection <- get_num df "DeviceProtection" ;;
  support <- get_num df "TechSupport" ;;
  tv <- get_num df "StreamingTV" ;;
  movies <- get_num df "StreamingMovies" ;;
  let df := assign df "TotalServices"
              (Np.add (Np.add (Np.add (Np.add (Np.add (Np.add (Np.add
                 phone (NInt (1 - has_internet_no)))
                 security) backup) protection) support) tv) movies) in
  services <- get_num df "TotalServices" ;;
  tenure <- get_num df "tenure" ;;
  let df := assign df "ServiceDensity"
              (Np.truediv services (Np.add tenure (NInt 1))) in
  services <- get_num df "TotalServices" ;;
  let df := assign df "HasMinimalServices"
              (Np.of_bool (Np.leb services (NInt 2))) in
  (* High-risk profiles *)
  let has_fiber := indicator_set df "InternetService_Fiber optic" in
  let has_echeck := indicator_set df "PaymentMethod_Electronic check" in
  b <- and_then (cell_eq df "Contract" 0)
         (Ok ((has_fiber =? 1) && (has_echeck =? 1))) ;;
  let df := assign df "HighRiskProfile" (Np.of_bool b) in
  b <- and_then (cell_eq df "SeniorCitizen" 1) (cell_eq df "TechSupport" 0) ;;
  let df := assign df "SeniorNoSupport" (Np.of_bool b) in
  b <- and_then (cell_eq df "Partner" 0) (cell_eq df "Dependents" 0) ;;
  let df := assign df "SingleNoFamily" (Np.of_bool b) in
  b <- and_then (tenure <- get_num df "tenure" ;;
                 Ok (Np.leb tenure (NInt 12)))
                (monthly <- get_num df "MonthlyCharges" ;;
                 Ok (Np.gtb monthly (NInt 70))) ;;
  let df := assign df "NewHighSpender" (Np.of_bool b) in
  (* Payment and billing features *)
  b <- and_then (cell_eq df "PaperlessBilling" 1) (Ok (has_echeck =? 1)) ;;
  let df := assign df "PaperlessElectronicCheck" (Np.of_bool b) in
  let has_bank := indicator_set df "PaymentMethod_Bank transfer (automatic)" in
  let has_cc := indicator_set df "PaymentMethod_Credit card (automatic)" in
  let df := assign df "HasAutoPay"
              (Np.of_bool ((has_bank =? 1) || (has_cc =? 1))) in
  (* Internet service quality *)
  b <- and_then (Ok (has_fiber =? 1))
         (and_then (cell_eq df "OnlineSecurity" 0)
                   (cell_eq df "TechSupport" 0)) ;;
  Ok (assign df "FiberNoAddons" (Np.of_bool b)).

(** 7. Add the missing columns with 0. *)
Definition add_missing_columns (df : frame) : frame :=
  fold_left
    (fun df col => if has_col col df then df else assign df col (NInt 0))
    expected_columns df.

(** 7. Ensure the column order: fill, then reorder to match training. *)
Definition align_columns (df : frame) : result frame :=
  select expected_columns (add_missing_columns df).

Section Preprocessing.

Variable parse_number : string -> option num.
Variable py_str : num -> string.

(** [scaler.transform] on one row of the three scaled columns, which it
    receives as floats; a fitted artifact, possibly raising. *)
Variable scaler_transform :
  float64 -> float64 -> float64 -> result (float64 * float64 * float64).

(** 4. One-hot encoding *)
Definition one_hot_encoding (df : frame) : result frame :=
  get_dummies py_str df ["InternetService"; "PaymentMethod"] true.

(** 5. Ensure numeric types *)
Definition ensure_numeric_types (df : frame) : result frame :=
  df <- to_numeric_col parse_number df "tenure" ;;
  df <- to_numeric_col parse_number df "MonthlyCharges" ;;
  df <- to_numeric_col parse_number df "TotalCharges" ;;
  to_numeric_col parse_number df "SeniorCitizen".

(** 6. Scaling: [df[cols_to_scale] = scaler.transform(df[cols_to_scale])] *)
Definition scaling (df : frame) : result frame :=
  tenure <- get_num df "tenure" ;;
  monthly <- get_num df "MonthlyCharges" ;;
  total <- get_num df "TotalCharges" ;;
  ' (t', m', c') <- scaler_transform (Np.to_float tenure)
                      (Np.to_float monthly) (Np.to_float total) ;;
  let df := assign df "tenure" (NFloat t') in
  let df := assign df "MonthlyCharges" (NFloat m') in
  Ok (assign df "TotalCharges" (NFloat c')).

(** Steps 1 to 4: the encodings. *)
Definition encode (df : frame) : result frame :=
  df <- binary_encoding df ;;
  df <- handle_no_service df ;;
  df <- ordinal_encoding df ;;
  one_hot_encoding df.

(** Steps 1 to 5: the frame just before scaling. *)
Definition engineer (df : frame) : result frame :=
  df <- encode df ;;
  df <- ensure_numeric_types df ;;
  derived_features df.

(** Steps 1 to 6: the intermediate representation that is aligned. *)
Definition intermediate (df : frame) : result frame :=
  df <- engineer df ;;
  scaling df.

Definition preprocess_input (input_df : frame) : result frame :=
  df <- intermediate input_df ;;
  align_columns df.

End Preprocessing.

(* ================================================================= *)
(** ** src/app.py: the input row and the response *)

(** One customer, one cell per raw attribute. *)
Record RawAttributeRecord : Type := {
  Contract : pyval;
  InternetService : pyval;
  tenure : pyval;
  MonthlyCharges : pyval;
  TotalCharges : pyval;
  PaymentMethod : pyval;
  PaperlessBilling : pyval;
  OnlineSecurity : pyval;
  TechSupport : pyval;
  gender : pyval;
  SeniorCitizen : pyval;
  Partner : pyval;
  Dependents : pyval;
  PhoneService : pyval;
  MultipleLines : pyval;
  OnlineBackup : pyval;
  DeviceProtection : pyval;
  StreamingTV : pyval;
  StreamingMovies : pyval
}.

(** [pd.DataFrame([input_dict])], columns in the order of the dict keys. *)
Definition input_df (r : RawAttributeRecord) : frame :=
  [ ("Contract", Contract r); ("InternetService", InternetService r);
    ("tenure", tenure r); ("MonthlyCharges", MonthlyCharges r);
    ("TotalCharges", TotalCharges r); ("PaymentMethod", PaymentMethod r);
    ("PaperlessBilling", PaperlessBilling r);
    ("OnlineSecurity", OnlineSecurity r); ("TechSupport", TechSupport r);
    ("gender", gender r); ("SeniorCitizen", SeniorCitizen r);
    ("Partner", Partner r); ("Dependents", Dependents r);
    ("PhoneService", PhoneService r); ("MultipleLines", MultipleLines r);
    ("OnlineBackup", OnlineBackup r);
    ("DeviceProtection", DeviceProtection r);
    ("StreamingTV", StreamingTV r); ("StreamingMovies", StreamingMovies r) ].

(** The values of the form widgets. *)
Record form : Type := {
  contract : string;
  internet_service : string;
  form_tenure : Z;
  monthly_charges : Q;
  payment_method : string;
  paperless_billing : string;
  online_security : string;
  tech_support : string
}.

(** [input_dict] of the form handler. *)
Definition input_dict (f : form) : RawAttributeRecord :=
  let total_charges := Qred (inject_Z (form_tenure f) * monthly_charges f) in
  {| Contract := VStr (contract f);
     InternetService := VStr (internet_service f);
     tenure := VNum (NInt (form_tenure f));
     MonthlyCharges := VNum (NFloat (FNum (monthly_charges f)));
     TotalCharges := VNum (NFloat (FNum total_charges));
     PaymentMethod := VStr (payment_method f);
     PaperlessBilling := VStr (paperless_billing f);
     OnlineSecurity :=
       VStr (if negb (String.eqb (internet_service f) "No")
             then online_security f else "No internet service");
     TechSupport :=
       VStr (if negb (String.eqb (internet_service f) "No")
             then tech_support f else "No internet service");
     gender := VStr "Female";
     SeniorCitizen := VNum (NInt 0);
     Partner := VStr "No";
     Dependents := VStr "No";
     PhoneService := VStr "Yes";
     MultipleLines := VStr "No";
     OnlineBackup := VStr "No";
     DeviceProtection := VStr "No";
     StreamingTV := VStr "No";
     StreamingMovies := VStr "No" |}.

Inductive risk_class : Type := risk_high | risk_medium | risk_low.

(** [will_churn = 1 if churn_probability >= threshold else 0] *)
Definition will_churn (churn_probability threshold : float64) : Z :=
  if Float.geb churn_probability threshold then 1 else 0.

(** The value of the literal [0.4]: the [float64] nearest to 4/10, which
    is 3602879701896397 / 2^53 and lies above 4/10. *)
Definition float_0_4 : Q := 3602879701896397 # 9007199254740992.

(** The value of the literal [0.7]: the [float64] nearest to 7/10, which
    is 3152519739159347 / 2^52 and lies below 7/10. *)
Definition float_0_7 : Q := 3152519739159347 # 4503599627370496.

(** The risk assessment of the handler:
    [if churn_probability >= 0.7: ... elif churn_probability >= 0.4: ...
    else: ...]. *)
Definition risk_assessment (churn_probability : float64) : risk_class :=
  if Float.geb churn_probability (FNum float_0_7) then risk_high
  else if Float.geb churn_probability (FNum float_0_4) then risk_medium
  else risk_low.

(** What the handler derives from the probability. *)
Record response : Type := {
  probability : float64;
  decision : Z;
  risk_tier : risk_class
}.

Definition respond (churn_probability threshold : float64) : response :=
  {| probability := churn_probability;
     decision := will_churn churn_probability threshold;
     risk_tier := risk_assessment churn_probability |}.

(* ================================================================= *)
(** ** The row computed on a record, in closed form *)

(** The encoded cells of a record (steps 1 to 3). *)
Definition enc_yes_no (v : pyval) : num := map_values yes_no v.

Definition enc_service (sentinel : string) (v : pyval) : num :=
  map_values yes_no (replace_value sentinel "No" v).

Definition enc_gender (v : pyval) : num :=
  map_values [("Female", 0); ("Male", 1)] v.

Definition enc_contract (v : pyval) : num :=
  map_values [("Month-to-month", 0); ("One year", 1); ("Two year", 2)] v.

(** The frame after steps 1 to 4 on a one-row input: the two one-hot
    columns are gone and no indicator column has been added. *)
Definition encoded_frame (r : RawAttributeRecord) : frame :=
  [ ("Contract", VNum (enc_contract (Contract r)));
    ("tenure", tenure r); ("MonthlyCharges", MonthlyCharges r);
    ("TotalCharges", TotalCharges r);
    ("PaperlessBilling", VNum (enc_yes_no (PaperlessBilling r)));
    ("OnlineSecurity",
     VNum (enc_service "No internet service" (OnlineSecurity r)));
    ("TechSupport", VNum (enc_service "No internet service" (TechSupport r)));
    ("gender", VNum (enc_gender (gender r)));
    ("SeniorCitizen", SeniorCitizen r);
    ("Partner", VNum (enc_yes_no (Partner r)));
    ("Dependents", VNum (enc_yes_no (Dependents r)));
    ("PhoneService", VNum (enc_yes_no (PhoneService r)));
    ("MultipleLines", VNum (enc_service "No phone service" (MultipleLines r)));
    ("OnlineBackup",
     VNum (enc_service "No internet service" (OnlineBackup r)));
    ("DeviceProtection",
     VNum (enc_service "No internet service" (DeviceProtection r)));
    ("StreamingTV", VNum (enc_service "No internet service" (StreamingTV r)));
    ("StreamingMovies",
     VNum (enc_service "No internet service" (StreamingMovies r))) ].

(** [TotalServices] as the code computes it on a one-row input: the
    internet slot is the constant 1. *)
Definition total_services (r : RawAttributeRecord) : num :=
  Np.add (Np.add (Np.add (Np.add (Np.add (Np.add (Np.add
    (enc_yes_no (PhoneService r))
    (NInt 1))
    (enc_service "No internet service" (OnlineSecurity r)))
    (enc_service "No internet service" (OnlineBackup r)))
    (enc_service "No internet service" (DeviceProtection r)))
    (enc_service "No internet service" (TechSupport r)))
    (enc_service "No internet service" (StreamingTV r)))
    (enc_service "No internet service" (StreamingMovies r)).

(** The returned row, given the numeric reading [t], [m], [tc], [sc] of
    the four numeric fields and the scaler's image [t'], [m'], [tc'] of
    the first three. *)
Definition feature_vector (r : RawAttributeRecord) (t m tc sc : num)
           (t' m' tc' : float64) : frame :=
  [ ("gender", VNum (enc_gender (gender r)));
    ("SeniorCitizen", VNum sc);
    ("Partner", VNum (enc_yes_no (Partner r)));
    ("Dependents", VNum (enc_yes_no (Dependents r)));
    ("tenure", VNum (NFloat t'));
    ("PhoneService", VNum (enc_yes_no (PhoneService r)));
    ("MultipleLines", VNum (enc_service "No phone service" (MultipleLines r)));
    ("OnlineSecurity",
     VNum (enc_service "No internet service" (OnlineSecurity r)));
    ("OnlineBackup",
     VNum (enc_service "No internet service" (OnlineBackup r)));
    ("DeviceProtection",
     VNum (enc_service "No internet service" (DeviceProtection r)));
    ("TechSupport", VNum (enc_service "No internet service" (TechSupport r)));
    ("StreamingTV", VNum (enc_service "No internet service" (StreamingTV r)));
    ("StreamingMovies",
     VNum (enc_service "No internet service" (StreamingMovies r)));
    ("Contract", VNum (enc_contract (Contract r)));
    ("PaperlessBilling", VNum (enc_yes_no (PaperlessBilling r)));
    ("MonthlyCharges", VNum (NFloat m'));
    ("TotalCharges", VNum (NFloat tc'));
    ("IsNewCustomer", VNum (Np.of_bool (Np.leb t (NInt 12))));
    ("IsEstablished",
     VNum (Np.of_bool (Np.gtb t (NInt 12) && Np.leb t (NInt 24))));
    ("IsLoyalCustomer", VNum (Np.of_bool (Np.gtb t (NInt 48))));
    ("ChargePerTenureMonth", VNum (Np.truediv tc (Np.add t (NInt 1))));
    ("IsHighSpender", VNum (Np.of_bool (Np.gtb m (NInt 70))));
    ("ChargeTenureRatio", VNum (Np.truediv m (Np.add t (NInt 1))));
    ("TotalServices", VNum (total_services r));
    ("ServiceDensity",
     VNum (Np.truediv (total_services r) (Np.add t (NInt 1))));
    ("HasMinimalServices",
     VNum (Np.of_bool (Np.leb (total_services r) (NInt 2))));
    ("HighRiskProfile",
     VNum (Np.of_bool (Np.eqb (enc_contract (Contract r)) (NInt 0) && false)));
    ("SeniorNoSupport",
     VNum (Np.of_bool
             (Np.eqb sc (NInt 1)
              && Np.eqb (enc_service "No internet service" (TechSupport r))
                        (NInt 0))));
    ("SingleNoFamily",
     VNum (Np.of_bool
             (Np.eqb (enc_yes_no (Partner r)) (NInt 0)
              && Np.eqb (enc_yes_no (Dependents r)) (NInt 0))));
    ("NewHighSpender",
     VNum (Np.of_bool (Np.leb t (NInt 12) && Np.gtb m (NInt 70))));
    ("PaperlessElectronicCheck",
     VNum (Np.of_bool
             (Np.eqb (enc_yes_no (PaperlessBilling r)) (NInt 1) && false)));
    ("HasAutoPay", VNum (Np.of_bool false));
    ("FiberNoAddons", VNum (Np.of_bool false));
    ("InternetService_Fiber optic", VNum (NInt 0));
    ("InternetService_No", VNum (NInt 0));
    ("PaymentMethod_Credit card (automatic)", VNum (NInt 0));
    ("PaymentMethod_Electronic check", VNum (NInt 0));
    ("PaymentMethod_Mailed check", VNum (NInt 0)) ].

(* ================================================================= *)
(** ** Inputs, and what the specification says about them *)

(** The four numeric fields as [pd.to_numeric] reads them. *)
Definition numeric_fields (parse_number : string -> option num)
           (r : RawAttributeRecord) (t m tc sc : num) : Prop :=
  to_numeric parse_number (tenure r) = Ok t
  /\ to_numeric parse_number (MonthlyCharges r) = Ok m
  /\ to_numeric parse_number (TotalCharges r) = Ok tc
  /\ to_numeric parse_number (SeniorCitizen r) = Ok sc.

(** Some numeric field holds a string that is not a number. *)
Definition unparsable (parse_number : string -> option num)
           (r : RawAttributeRecord) : bool :=
  negb (is_ok (to_numeric parse_number (tenure r))
        && is_ok (to_numeric parse_number (MonthlyCharges r))
        && is_ok (to_numeric parse_number (TotalCharges r))
        && is_ok (to_numeric parse_number (SeniorCitizen r))).

(** The scaler maps the raw triple to [(t', m', tc')]. *)
Definition scaled
           (scaler_transform :
              float64 -> float64 -> float64
              -> result (float64 * float64 * float64))
           (t m tc : num) (t' m' tc' : float64) : Prop :=
  scaler_transform (Np.to_float t) (Np.to_float m) (Np.to_float tc)
  = Ok (t', m', tc').

(** [v] is a string of the enumeration. *)
Definition in_enum (enum : list string) (v : pyval) : bool :=
  match v with
  | VStr s => existsb (fun k => String.eqb k s) enum
  | VNum _ => false
  end.

(** The documented enumerations of the fields that steps 1 to 3 encode
    with a map (specification, data model): column label, field, accepted
    strings. *)
Definition encoded_fields
  : list (string * (RawAttributeRecord -> pyval) * list string) :=
  [ ("gender", gender, ["Female"; "Male"]);
    ("Partner", Partner, ["Yes"; "No"]);
    ("Dependents", Dependents, ["Yes"; "No"]);
    ("PhoneService", PhoneService, ["Yes"; "No"]);
    ("PaperlessBilling", PaperlessBilling, ["Yes"; "No"]);
    ("MultipleLines", MultipleLines, ["Yes"; "No"; "No phone service"]);
    ("OnlineSecurity", OnlineSecurity, ["Yes"; "No"; "No internet service"]);
    ("OnlineBackup", OnlineBackup, ["Yes"; "No"; "No internet service"]);
    ("DeviceProtection", DeviceProtection,
     ["Yes"; "No"; "No internet service"]);
    ("TechSupport", TechSupport, ["Yes"; "No"; "No internet service"]);
    ("StreamingTV", StreamingTV, ["Yes"; "No"; "No internet service"]);
    ("StreamingMovies", StreamingMovies,
     ["Yes"; "No"; "No internet service"]);
    ("Contract", Contract, ["Month-to-month"; "One year"; "Two year"]) ].

Definition InternetService_enum : list string := ["Fiber optic"; "DSL"; "No"].

Definition PaymentMethod_enum : list string :=
  [ "Electronic check"; "Mailed check"; "Bank transfer (automatic)";
    "Credit card (automatic)" ].

(** Every categorical field of the record is in its enumeration. *)
Definition categorical_valid (r : RawAttributeRecord) : bool :=
  forallb (fun f : string * (RawAttributeRecord -> pyval) * list string =>
             in_enum (snd f) (snd (fst f) r))
          encoded_fields
  && in_enum InternetService_enum (InternetService r)
  && in_enum PaymentMethod_enum (PaymentMethod r).

(** [TotalServices] in the words of the specification: how many of the
    eight slots equal 1 after the no-service normalization, the internet
    slot being 1 iff [InternetService] is not "No". *)
Definition is_one (n : num) : bool := Np.eqb n (NInt 1).

Definition spec_service_slots (r : RawAttributeRecord) : list bool :=
  [ is_one (enc_yes_no (PhoneService r));
    negb (pyval_eqb (InternetService r) (VStr "No"));
    is_one (enc_service "No internet service" (OnlineSecurity r));
    is_one (enc_service "No internet service" (OnlineBackup r));
    is_one (enc_service "No internet service" (DeviceProtection r));
    is_one (enc_service "No internet service" (TechSupport r));
    is_one (enc_service "No internet service" (StreamingTV r));
    is_one (enc_service "No internet service" (StreamingMovies r)) ].

Definition spec_total_services (r : RawAttributeRecord) : Z :=
  Z.of_nat (List.length (filter (fun b : bool => b) (spec_service_slots r))).

(** [HighRiskProfile] in the words of the specification. *)
Definition spec_high_risk (r : RawAttributeRecord) : bool :=
  pyval_eqb (Contract r) (VStr "Month-to-month")
  && pyval_eqb (InternetService r) (VStr "Fiber optic")
  && pyval_eqb (PaymentMethod r) (VStr "Electronic check").

(** The five one-hot indicator columns of the schema, with the category
    each stands for. *)
Definition InternetService_indicators : list (string * string) :=
  [ ("InternetService_Fiber optic", "Fiber optic");
    ("InternetService_No", "No") ].

Definition PaymentMethod_indicators : list (string * string) :=
  [ ("PaymentMethod_Credit card (automatic)", "Credit card (automatic)");
    ("PaymentMethod_Electronic check", "Electronic check");
    ("PaymentMethod_Mailed check", "Mailed check") ].

Definition indicator_columns : list string :=
  map fst (InternetService_indicators ++ PaymentMethod_indicators)%list.

(** A cell holding the integer [z]. *)
Definition int_cell (z : Z) : option pyval := Some (VNum (NInt z)).

(** *** Concrete artifacts and inputs used in the examples *)

(** A standard scaler: [(x - mean) / scale] per column. *)
Definition standard_scaler (mean scale : Q * Q * Q)
  : float64 -> float64 -> float64 -> result (float64 * float64 * float64) :=
  fun a b c =>
    let '(m1, m2, m3) := mean in
    let '(s1, s2, s3) := scale in
    Ok (Float.div (Float.add a (Float.neg (FNum m1))) (FNum s1),
        Float.div (Float.add b (Float.neg (FNum m2))) (FNum s2),
        Float.div (Float.add c (Float.neg (FNum m3))) (FNum s3)).

Definition example_scaler
  : float64 -> float64 -> float64 -> result (float64 * float64 * float64) :=
  standard_scaler (32, 65, 2280)%Q (24, 30, 2266)%Q.

(** A parser that accepts no string, and a label for numeric levels. *)
Definition no_number : string -> option num := fun _ => None.
Definition no_label : num -> string := fun _ => "".

(** tenure 12, monthly charges 70.0, hence total charges 840.0. *)
Definition example_form : form :=
  {| contract := "One year"; internet_service := "DSL";
     form_tenure := 12; monthly_charges := 70;
     payment_method := "Bank transfer (automatic)";
     paperless_billing := "No";
     online_security := "Yes"; tech_support := "No" |}.

(** The end-to-end scenario of the specification. *)
Definition high_risk_form : form :=
  {| contract := "Month-to-month"; internet_service := "Fiber optic";
     form_tenure := 3; monthly_charges := 95;
     payment_method := "Electronic check";
     paperless_billing := "Yes";
     online_security := "No"; tech_support := "No" |}.

(** A customer without internet service. *)
Definition no_internet_form : form :=
  {| contract := "Two year"; internet_service := "No";
     form_tenure := 30; monthly_charges := 20;
     payment_method := "Mailed check";
     paperless_billing := "No";
     online_security := "No"; tech_support := "No" |}.

(** A record whose [gender] and [Contract] are outside their
    enumerations, everything else as in [example_form]. *)
Definition out_of_enum_record : RawAttributeRecord :=
  {| Contract := VStr "Weekly";
     InternetService := VStr "DSL";
     tenure := VNum (NInt 12);
     MonthlyCharges := VNum (NFloat (FNum 70));
     TotalCharges := VNum (NFloat (FNum 840));
     PaymentMethod := VStr "Bank transfer (automatic)";
     PaperlessBilling := VStr "No";
     OnlineSecurity := VStr "Yes";
     TechSupport := VStr "No";
     gender := VStr "Other";
     SeniorCitizen := VNum (NInt 0);
     Partner := VStr "No";
     Dependents := VStr "No";
     PhoneService := VStr "Yes";
     MultipleLines := VStr "No";
     OnlineBackup := VStr "No";
     DeviceProtection := VStr "No";
     StreamingTV := VStr "No";
     StreamingMovies := VStr "No" |}.

(** A record whose [tenure] is a string that is not a number. *)
Definition unparsable_record : RawAttributeRecord :=
  {| Contract := VStr "One year";
     InternetService := VStr "DSL";
     tenure := VStr "twelve";
     MonthlyCharges := VNum (NFloat (FNum 70));
     TotalCharges := VNum (NFloat (FNum 840));
     PaymentMethod := VStr "Bank transfer (automatic)";
     PaperlessBilling := VStr "No";
     OnlineSecurity := VStr "Yes";
     TechSupport := VStr "No";
     gender := VStr "Female";
     SeniorCitizen := VNum (NInt 0);
     Partner := VStr "No";
     Dependents := VStr "No";
     PhoneService := VStr "Yes";
     MultipleLines := VStr "No";
     OnlineBackup := VStr "No";
     DeviceProtection := VStr "No";
     StreamingTV := VStr "No";
     StreamingMovies := VStr "No" |}.

(* ================================================================= *)
(** ** More of src/app.py: what the handler shows beside the tier *)

(** Truth value of a Python integer. *)
Definition truthy (z : Z) : bool := negb (z =? 0).

(** [risk_level = "HIGH" if will_churn else "LOW"], the "Risk Level"
    card. *)
Definition risk_level (will_churn : Z) : string :=
  if truthy will_churn then "HIGH" else "LOW".

(** [expected_ltv = 0 if will_churn else 1532] *)
Definition expected_ltv (will_churn : Z) : Z :=
  if truthy will_churn then 0 else 1532.



(** The recommended actions, by the text the handler appends:
    "Offer 1-year contract with 20% discount",
    "Incentivize automatic payment switch",
    "Provide 3 months free tech support",
    "Offer online security at 50% off",
    "Review pricing/loyalty discount",
    "Assign dedicated account manager". *)
Inductive recommendation : Type :=
| OfferContract
| IncentivizeAutoPay
| FreeTechSupport
| OfferSecurity
| ReviewPricing
| AccountManager.

(** [recommendations] of the handler.  The list is built, and shown, only
    under [if will_churn:]: one [append] per test that holds, in the order
    of the tests.  Without [will_churn] the block is skipped and there is
    no list ([None]). *)
Definition recommendations (will_churn : Z) (f : form)
  : option (list recommendation) :=
  if truthy will_churn then
    let recs := [] in
    let recs := if String.eqb (contract f) "Month-to-month"
                then (recs ++ [OfferContract])%list else recs in
    let recs := if String.eqb (payment_method f) "Electronic check"
                then (recs ++ [IncentivizeAutoPay])%list else recs in
    let recs := if String.eqb (internet_service f) "Fiber optic"
                   && String.eqb (tech_support f) "No"
                then (recs ++ [FreeTechSupport])%list else recs in
    let recs := if String.eqb (online_security f) "No"
                then (recs ++ [OfferSecurity])%list else recs in
    let recs := if Float.gtb (FNum (monthly_charges f)) (Float.of_Z 70)
                then (recs ++ [ReviewPricing])%list else recs in
    let recs := if form_tenure f <? 12
                then (recs ++ [AccountManager])%list else recs in
    Some recs
  else None.

(** [enumerate(l)] *)
Definition enumerate {A : Type} (l : list A) : list (nat * A) :=
  combine (seq 0 (List.length l)) l.

(** The loop that fills the two display columns: the messages shown in
    [rec_col1] and in [rec_col2], in display order. *)
Definition fill_columns {A : Type} (recs : list A) : list A * list A :=
  fold_left
    (fun (cols : list A * list A) (ir : nat * A) =>
       if Nat.eqb (fst ir mod 2) 0
       then (fst cols ++ [snd ir], snd cols)%list
       else (fst cols, snd cols ++ [snd ir])%list)
    (enumerate recs) ([], []).

(** Reading two columns row by row, left cell first. *)
Fixpoint interleave {A : Type} (l1 l2 : list A) : list A :=
  match l1, l2 with
  | [], _ => l2
  | _, [] => l1
  | x :: l1', y :: l2' => x :: y :: interleave l1' l2'
  end.

(** The elements at even positions, and the elements at odd positions. *)
Fixpoint alternate {A : Type} (l : list A) : list A * list A :=
  match l with
  | [] => ([], [])
  | x :: rest => let (a, b) := alternate rest in (x :: b, a)
  end.

(** 1 for true, 0 for false. *)
Definition Z_of_bool (b : bool) : Z := if b then 1 else 0.

(** The form offers "No" and "Yes" for the two add-on questions. *)
Definition selectable (f : form) : bool :=
  in_enum ["No"; "Yes"] (VStr (online_security f))
  && in_enum ["No"; "Yes"] (VStr (tech_support f)).

(** The add-on as it enters the row: asked for, and with internet. *)
Definition effective_addon (f : form) (answer : string) : bool :=
  negb (String.eqb (internet_service f) "No") && String.eqb answer "Yes".

(* ================================================================= *)
(** ** Column lists and record updates used in the statements *)

(** The raw columns the transform reads, in the order of first access. *)
Definition raw_columns : list string :=
  [ "gender"; "Partner"; "Dependents"; "PhoneService"; "PaperlessBilling";
    "MultipleLines"; "OnlineSecurity"; "OnlineBackup"; "DeviceProtection";
    "TechSupport"; "StreamingTV"; "StreamingMovies"; "Contract";
    "InternetService"; "PaymentMethod"; "tenure"; "MonthlyCharges";
    "TotalCharges"; "SeniorCitizen" ].

(** The columns that feature engineering assigns, in order. *)
Definition derived_columns : list string :=
  [ "IsNewCustomer"; "IsEstablished"; "IsLoyalCustomer";
    "ChargePerTenureMonth"; "IsHighSpender"; "ChargeTenureRatio";
    "TotalServices"; "ServiceDensity"; "HasMinimalServices";
    "HighRiskProfile"; "SeniorNoSupport"; "SingleNoFamily";
    "NewHighSpender"; "PaperlessElectronicCheck"; "HasAutoPay";
    "FiberNoAddons" ].

(** The 0/1 columns of the returned row. *)
Definition flag_columns : list string :=
  [ "IsNewCustomer"; "IsEstablished"; "IsLoyalCustomer"; "IsHighSpender";
    "HasMinimalServices"; "HighRiskProfile"; "SeniorNoSupport";
    "SingleNoFamily"; "NewHighSpender"; "PaperlessElectronicCheck";
    "HasAutoPay"; "FiberNoAddons"; "InternetService_Fiber optic";
    "InternetService_No"; "PaymentMethod_Credit card (automatic)";
    "PaymentMethod_Electronic check"; "PaymentMethod_Mailed check" ].

(** The service fields with the sentinel that step 2 rewrites to "No". *)
Definition service_fields
  : list (string * (RawAttributeRecord -> pyval) * string) :=
  [ ("MultipleLines", MultipleLines, "No phone service");
    ("OnlineSecurity", OnlineSecurity, "No internet service");
    ("OnlineBackup", OnlineBackup, "No internet service");
    ("DeviceProtection", DeviceProtection, "No internet service");
    ("TechSupport", TechSupport, "No internet service");
    ("StreamingTV", StreamingTV, "No internet service");
    ("StreamingMovies", StreamingMovies, "No internet service") ].

(** The plain Yes/No fields of step 1. *)
Definition yes_no_fields : list (string * (RawAttributeRecord -> pyval)) :=
  [ ("Partner", Partner); ("Dependents", Dependents);
    ("PhoneService", PhoneService); ("PaperlessBilling", PaperlessBilling) ].

(** The record with other cells in the two one-hot fields. *)
Definition with_one_hot_fields (r : RawAttributeRecord)
           (internet payment : pyval) : RawAttributeRecord :=
  {| Contract := Contract r;
     InternetService := internet;
     tenure := tenure r;
     MonthlyCharges := MonthlyCharges r;
     TotalCharges := TotalCharges r;
     PaymentMethod := payment;
     PaperlessBilling := PaperlessBilling r;
     OnlineSecurity := OnlineSecurity r;
     TechSupport := TechSupport r;
     gender := gender r;
     SeniorCitizen := SeniorCitizen r;
     Partner := Partner r;
     Dependents := Dependents r;
     PhoneService := PhoneService r;
     MultipleLines := MultipleLines r;
     OnlineBackup := OnlineBackup r;
     DeviceProtection := DeviceProtection r;
     StreamingTV := StreamingTV r;
     StreamingMovies := StreamingMovies r |}.

(** The service count with the internet slot as a parameter. *)
Definition service_sum (r : RawAttributeRecord) (internet : Z) : num :=
  Np.add (Np.add (Np.add (Np.add (Np.add (Np.add (Np.add
    (enc_yes_no (PhoneService r))
    (NInt internet))
    (enc_service "No internet service" (OnlineSecurity r)))
    (enc_service "No internet service" (OnlineBackup r)))
    (enc_service "No internet service" (DeviceProtection r)))
    (enc_service "No internet service" (TechSupport r)))
    (enc_service "No internet service" (StreamingTV r)))
    (enc_service "No internet service" (StreamingMovies r)).

(** What one column operation does to a frame: the column it reads is
    there, the column list is kept, the other cells are kept. *)
Definition updates (c : string) (df df' : frame) : Prop :=
  In c (columns df)
  /\ columns df' = columns df
  /\ forall c', c' <> c -> lookup c' df' = lookup c' df.

(** A run of column operations: the columns read, in order. *)
Inductive updates_all : list string -> frame -> frame -> Prop :=
| updates_nil (df : frame) : updates_all [] df df
| updates_cons (c : string) (cs : list string) (df df1 df' : frame) :
    updates c df df1 -> updates_all cs df1 df' ->
    updates_all (c :: cs) df df'.

(** A direct call with tenure -1, which the form itself does not allow. *)
Definition minus_one_form : form :=
  {| contract := "One year"; internet_service := "DSL";
     form_tenure := -1; monthly_charges := 70;
     payment_method := "Mailed check";
     paperless_billing := "No";
     online_security := "No"; tech_support := "No" |}.

(** The one-row frame of a record to which the caller has added indicator
    columns of its own. *)
Definition input_df_with (r : RawAttributeRecord) (extra : frame) : frame :=
  (input_df r ++ extra)%list.

(* ================================================================= *)
(** ** Basic facts: the monad, frames, one-row dummies *)

Lemma bind_ok_inv {A B : Type} (m : result A) (f : A -> result B) (b : B) :
  bind m f = Ok b -> exists a, m = Ok a /\ f a = Ok b.
Proof.
  destruct m as [a | e]; simpl; intros H; [eauto | discriminate].
Qed.

Lemma and_then_ok (x y : bool) : and_then (Ok x) (Ok y) = Ok (x && y).
Proof. destruct x; reflexivity. Qed.

Lemma get_dummies_1d_one_row (py_str : num -> string) (v : pyval)
      (prefix : string) :
  get_dummies_1d py_str [v] prefix true = [].
Proof.
  unfold get_dummies_1d, factorize. simpl filter.
  destruct (Np.isna v); simpl; [reflexivity |].
  destruct v; reflexivity.
Qed.

(** Without [drop_first] the single level gets its indicator, set to 1. *)
Lemma get_dummies_1d_keep_first (py_str : num -> string) (s prefix : string) :
  get_dummies_1d py_str [VStr s] prefix false = [(prefix ++ "_" ++ s, [NInt 1])].
Proof.
  unfold get_dummies_1d, factorize. simpl.
  rewrite String.eqb_refl. reflexivity.
Qed.

(** On the training categories the dropped levels are the baselines and
    the indicator labels are the ones of the expected schema. *)
Example get_dummies_1d_InternetService (py_str : num -> string) :
  map fst (get_dummies_1d py_str
             [VStr "Fiber optic"; VStr "DSL"; VStr "No"; VStr "DSL"]
             "InternetService" true)
  = ["InternetService_Fiber optic"; "InternetService_No"].
Proof. reflexivity. Qed.

Example get_dummies_1d_PaymentMethod (py_str : num -> string) :
  get_dummies_1d py_str
    [VStr "Electronic check"; VStr "Mailed check";
     VStr "Bank transfer (automatic)"; VStr "Credit card (automatic)"]
    "PaymentMethod" true
  = [("PaymentMethod_Credit card (automatic)",
      [NInt 0; NInt 0; NInt 0; NInt 1]);
     ("PaymentMethod_Electronic check", [NInt 1; NInt 0; NInt 0; NInt 0]);
     ("PaymentMethod_Mailed check", [NInt 0; NInt 1; NInt 0; NInt 0])].
Proof. reflexivity. Qed.

(** *** Association-list frames *)

Lemma has_col_lookup (c : string) (df : frame) :
  has_col c df = true <-> lookup c df <> None.
Proof.
  unfold has_col, columns.
  induction df as [| [k v] rest IH]; simpl.
  - split; [discriminate | congruence].
  - rewrite (String.eqb_sym c k). destruct (String.eqb k c); simpl.
    + split; [discriminate | reflexivity].
    + exact IH.
Qed.

Lemma has_col_false (c : string) (df : frame) :
  has_col c df = false <-> lookup c df = None.
Proof.
  pose proof (has_col_lookup c df) as H.
  destruct (has_col c df), (lookup c df); split; intros E;
    try reflexivity; try discriminate.
  - exfalso. apply (proj1 H); reflexivity.
  - assert (true = false -> False) by discriminate.
    exfalso. assert (false = true) as F by (apply H; discriminate).
    discriminate.
Qed.

Lemma lookup_setitem_eq (df : frame) (c : string) (v : pyval) :
  lookup c (setitem df c v) = Some v.
Proof.
  induction df as [| [k x] rest IH]; simpl.
  - rewrite String.eqb_refl; reflexivity.
  - destruct (String.eqb k c) eqn:E; simpl; rewrite E; [reflexivity | exact IH].
Qed.

Lemma lookup_setitem_neq (df : frame) (c c' : string) (v : pyval) :
  c <> c' -> lookup c' (setitem df c v) = lookup c' df.
Proof.
  intros N. induction df as [| [k x] rest IH]; simpl.
  - apply String.eqb_neq in N. rewrite N. reflexivity.
  - destruct (String.eqb k c) eqn:E; simpl.
    + apply String.eqb_eq in E. subst k.
      apply String.eqb_neq in N. rewrite N. reflexivity.
    + rewrite IH. reflexivity.
Qed.

Lemma columns_setitem_present (df : frame) (c : string) (v : pyval) :
  lookup c df <> None -> columns (setitem df c v) = columns df.
Proof.
  unfold columns. induction df as [| [k x] rest IH]; simpl; intros H.
  - congruence.
  - destruct (String.eqb k c) eqn:E; simpl; [reflexivity |].
    rewrite IH by exact H. reflexivity.
Qed.

Lemma getitem_ok_lookup (df : frame) (c : string) (v : pyval) :
  getitem df c = Ok v -> lookup c df = Some v.
Proof.
  unfold getitem. destruct (lookup c df); intros H; inversion H; reflexivity.
Qed.

Lemma get_num_ok_lookup (df : frame) (c : string) (n : num) :
  get_num df c = Ok n -> lookup c df = Some (VNum n).
Proof.
  unfold get_num. intros H. apply bind_ok_inv in H as [v [G H]].
  apply getitem_ok_lookup in G. destruct v; inversion H. subst. exact G.
Qed.

(** *** Step 7 on an arbitrary intermediate frame *)

Lemma add_missing_lookup (cols : list string) (df : frame) (col : string) :
  lookup col
    (fold_left
       (fun df c => if has_col c df then df else assign df c (NInt 0))
       cols df)
  = match lookup col df with
    | Some v => Some v
    | None => if existsb (String.eqb col) cols then int_cell 0 else None
    end.
Proof.
  revert df. induction cols as [| c rest IH]; intros df; simpl.
  - destruct (lookup col df); reflexivity.
  - rewrite IH. destruct (has_col c df) eqn:Hc.
    + destruct (lookup col df) eqn:L; [reflexivity |].
      destruct (String.eqb col c) eqn:E; [| reflexivity].
      apply String.eqb_eq in E. subst c.
      apply has_col_lookup in Hc. congruence.
    + unfold assign. destruct (String.eqb col c) eqn:E; simpl.
      * apply String.eqb_eq in E. subst c.
        rewrite lookup_setitem_eq.
        apply has_col_false in Hc. rewrite Hc. reflexivity.
      * apply String.eqb_neq in E.
        rewrite lookup_setitem_neq by congruence. reflexivity.
Qed.

Lemma select_spec (cols : list string) (df : frame) :
  (forall c, In c cols -> lookup c df <> None) ->
  exists out,
    select cols df = Ok out
    /\ columns out = cols
    /\ (forall c, In c cols -> lookup c out = lookup c df)
    /\ (forall c, ~ In c cols -> lookup c out = None).
Proof.
  induction cols as [| c rest IH]; intros H; simpl.
  - exists []. repeat split; intros; reflexivity || contradiction.
  - destruct IH as [out [S [C [I N]]]].
    { intros c' Hc'. apply H. right. exact Hc'. }
    unfold getitem. destruct (lookup c df) as [v |] eqn:L.
    + simpl. rewrite S. simpl. exists ((c, v) :: out).
      split; [reflexivity |]. split; [simpl; rewrite C; reflexivity |].
      split.
      * intros c' Hc'. simpl. destruct (String.eqb c c') eqn:E.
        -- apply String.eqb_eq in E. subst c'. symmetry. exact L.
        -- apply I. destruct Hc' as [-> | Hc']; [| exact Hc'].
           rewrite String.eqb_refl in E. discriminate.
      * intros c' Hc'. simpl. destruct (String.eqb c c') eqn:E.
        -- apply String.eqb_eq in E. subst c'. exfalso. apply Hc'. left.
           reflexivity.
        -- apply N. intros Hin. apply Hc'. right. exact Hin.
    + exfalso. apply (H c); [left; reflexivity | exact L].
Qed.

Lemma existsb_eqb_In (c : string) (cols : list string) :
  existsb (String.eqb c) cols = true <-> In c cols.
Proof.
  rewrite existsb_exists. split.
  - intros [x [Hin E]]. apply String.eqb_eq in E. subst x. exact Hin.
  - intros Hin. exists c. split; [exact Hin | apply String.eqb_refl].
Qed.

(** Alignment always succeeds and returns the expected columns in order;
    a column that the frame lacks holds 0, a column that is not expected
    is gone. *)
Lemma align_columns_spec (mid : frame) :
  exists out,
    align_columns mid = Ok out
    /\ columns out = expected_columns
    /\ (forall c, In c expected_columns ->
          lookup c out
          = Some (match lookup c mid with
                  | Some v => v
                  | None => VNum (NInt 0)
                  end))
    /\ (forall c, ~ In c expected_columns -> lookup c out = None).
Proof.
  unfold align_columns, add_missing_columns.
  destruct (select_spec expected_columns
              (fold_left
                 (fun df c => if has_col c df then df else assign df c (NInt 0))
                 expected_columns mid))
    as [out [S [C [I N]]]].
  - intros c Hc. rewrite add_missing_lookup.
    destruct (lookup c mid); [discriminate |].
    apply existsb_eqb_In in Hc. rewrite Hc. discriminate.
  - exists out. split; [exact S |]. split; [exact C |]. split; [| exact N].
    intros c Hc. rewrite (I c Hc), add_missing_lookup.
    destruct (lookup c mid); [reflexivity |].
    apply existsb_eqb_In in Hc. rewrite Hc. reflexivity.
Qed.

(* ================================================================= *)
(** ** The pipeline on a record *)

Ltac frame_ops :=
  cbv beta iota zeta delta
    [bind select getitem lookup setitem assign drop filter existsb negb
     fst snd flat_map map app String.eqb Ascii.eqb Bool.eqb get_num
     indicator_set has_col columns cell_eq py_eq fold_left map_col
     replace_col orb Z.eqb Z.sub Z.add Z.opp Z.pos_sub Pos.eqb hd].

Section Pipeline.

Variable parse_number : string -> option num.
Variable py_str : num -> string.
Variable scaler_transform :
  float64 -> float64 -> float64 -> result (float64 * float64 * float64).

(** Scaling writes the three scaled columns and nothing else. *)
Lemma scaling_frame (df df' : frame) :
  scaling scaler_transform df = Ok df' ->
  columns df' = columns df
  /\ forall c, ~ In c cols_to_scale -> lookup c df' = lookup c df.
Proof.
  unfold scaling. intros H.
  apply bind_ok_inv in H as [t [Ht H]].
  apply bind_ok_inv in H as [m [Hm H]].
  apply bind_ok_inv in H as [tc [Htc H]].
  apply bind_ok_inv in H as [[[t' m'] tc'] [_ H]].
  inversion H; subst df'; clear H.
  apply get_num_ok_lookup in Ht, Hm, Htc.
  unfold assign. split.
  - rewrite !columns_setitem_present; try reflexivity.
    + rewrite Ht; discriminate.
    + rewrite lookup_setitem_neq by discriminate. rewrite Hm; discriminate.
    + rewrite !lookup_setitem_neq by discriminate. rewrite Htc; discriminate.
  - intros c Hc. unfold cols_to_scale in Hc. simpl in Hc.
    rewrite !lookup_setitem_neq; [reflexivity | | |]; intros E; apply Hc;
      subst c; auto.
Qed.

(** Steps 1 to 4 on a record: the encodings, and a one-hot step that adds
    no column. *)
Lemma encode_record (r : RawAttributeRecord) :
  encode py_str (input_df r) = Ok (encoded_frame r).
Proof.
  unfold encode.
  unfold binary_encoding, input_df; frame_ops.
  unfold handle_no_service; frame_ops.
  unfold ordinal_encoding; frame_ops.
  unfold one_hot_encoding, get_dummies; frame_ops.
  rewrite !get_dummies_1d_one_row; frame_ops.
  reflexivity.
Qed.

(** The whole transform on a record whose numeric fields are numbers:
    it returns exactly when the scaler does, and then the closed form. *)
Lemma preprocess_input_numeric (r : RawAttributeRecord) (t m tc sc : num) :
  numeric_fields parse_number r t m tc sc ->
  preprocess_input parse_number py_str scaler_transform (input_df r)
  = (' (t', m', tc') <- scaler_transform (Np.to_float t) (Np.to_float m)
                          (Np.to_float tc) ;;
     Ok (feature_vector r t m tc sc t' m' tc')).
Proof.
  intros (Ht & Hm & Htc & Hsc).
  unfold preprocess_input, intermediate, engineer.
  rewrite encode_record. unfold encoded_frame.
  unfold ensure_numeric_types, to_numeric_col; frame_ops.
  rewrite Ht; frame_ops. rewrite Hm; frame_ops.
  rewrite Htc; frame_ops. rewrite Hsc; frame_ops.
  unfold derived_features; frame_ops.
  rewrite !and_then_ok; frame_ops.
  unfold scaling; frame_ops.
  destruct (scaler_transform (Np.to_float t) (Np.to_float m)
              (Np.to_float tc)) as [[[t' m'] tc'] | e];
    [| reflexivity].
  unfold align_columns, add_missing_columns, expected_columns; frame_ops.
  reflexivity.
Qed.

Lemma preprocess_input_record (r : RawAttributeRecord) (t m tc sc : num)
      (t' m' tc' : float64) :
  numeric_fields parse_number r t m tc sc ->
  scaled scaler_transform t m tc t' m' tc' ->
  preprocess_input parse_number py_str scaler_transform (input_df r)
  = Ok (feature_vector r t m tc sc t' m' tc').
Proof.
  intros Hn Hs. red in Hs.
  rewrite (preprocess_input_numeric r t m tc sc Hn), Hs. reflexivity.
Qed.

(** A numeric field that is not a number stops the transform in
    [ensure_numeric_types], with the [ValueError] of [pd.to_numeric]. *)
Lemma to_numeric_raises (v : pyval) (e : exn) :
  to_numeric parse_number v = Raise e ->
  e = ValueError "Unable to parse string".
Proof.
  destruct v as [s | n]; simpl; [| discriminate].
  destruct (parse_number s); intros H; inversion H; reflexivity.
Qed.

Lemma ensure_numeric_types_raises (r : RawAttributeRecord) :
  unparsable parse_number r = true ->
  ensure_numeric_types parse_number (encoded_frame r)
  = Raise (ValueError "Unable to parse string").
Proof.
  unfold unparsable. intros H.
  unfold ensure_numeric_types, to_numeric_col, encoded_frame; frame_ops.
  destruct (to_numeric parse_number (tenure r)) as [t | e] eqn:E1;
    [frame_ops | apply to_numeric_raises in E1; subst e; reflexivity].
  destruct (to_numeric parse_number (MonthlyCharges r)) as [m | e] eqn:E2;
    [frame_ops | apply to_numeric_raises in E2; subst e; reflexivity].
  destruct (to_numeric parse_number (TotalCharges r)) as [tc | e] eqn:E3;
    [frame_ops | apply to_numeric_raises in E3; subst e; reflexivity].
  destruct (to_numeric parse_number (SeniorCitizen r)) as [sc | e] eqn:E4;
    [discriminate H | apply to_numeric_raises in E4; subst e; reflexivity].
Qed.

Lemma numeric_fields_total (r : RawAttributeRecord) :
  unparsable parse_number r = false ->
  exists t m tc sc, numeric_fields parse_number r t m tc sc.
Proof.
  unfold unparsable, numeric_fields. intros H.
  destruct (to_numeric parse_number (tenure r)) as [t | e];
    [| discriminate H].
  destruct (to_numeric parse_number (MonthlyCharges r)) as [m | e];
    [| discriminate H].
  destruct (to_numeric parse_number (TotalCharges r)) as [tc | e];
    [| discriminate H].
  destruct (to_numeric parse_number (SeniorCitizen r)) as [sc | e];
    [| discriminate H].
  exists t, m, tc, sc. repeat split; reflexivity.
Qed.

End Pipeline.

(* ================================================================= *)
(** ** Comparisons and arithmetic on finite numbers *)

Lemma of_bool_cell_one (b : bool) :
  Some (VNum (Np.of_bool b)) = int_cell 1 <-> b = true.
Proof.
  unfold int_cell, Np.of_bool.
  destruct b; split; intros H; try reflexivity; discriminate.
Qed.

Lemma of_bool_cell_zero (b : bool) :
  Some (VNum (Np.of_bool b)) = int_cell 0 <-> b = false.
Proof.
  unfold int_cell, Np.of_bool.
  destruct b; split; intros H; try reflexivity; discriminate.
Qed.

Lemma Float_ltb_FNum (x y : Q) :
  Float.ltb (FNum x) (FNum y) = true <-> (x < y)%Q.
Proof.
  unfold Float.ltb, Float.leb, Float.eqb.
  rewrite andb_true_iff, negb_true_iff, Qle_bool_iff.
  split.
  - intros [L N]. apply Qeq_bool_neq in N. lra.
  - intros L. split; [lra |].
    destruct (Qeq_bool x y) eqn:E; [| reflexivity].
    apply Qeq_bool_iff in E. lra.
Qed.

Lemma Np_leb_value (t : num) (x : Q) (k : Z) :
  Np.value t = Some x ->
  (Np.leb t (NInt k) = true <-> (x <= inject_Z k)%Q).
Proof.
  destruct t as [z | [q | | |]]; simpl; intros H; inversion H; subst.
  - rewrite Z.leb_le, Zle_Qle. reflexivity.
  - apply Qle_bool_iff.
Qed.

Lemma Np_gtb_value (t : num) (x : Q) (k : Z) :
  Np.value t = Some x ->
  (Np.gtb t (NInt k) = true <-> (inject_Z k < x)%Q).
Proof.
  destruct t as [z | [q | | |]]; simpl; intros H; inversion H; subst.
  - rewrite Z.gtb_gt, Z.gt_lt_iff, Zlt_Qlt. reflexivity.
  - unfold Float.gtb, Float.of_Z. apply Float_ltb_FNum.
Qed.

(** [a > k] and [a <= k'] exclude each other when [k' <= k], for every
    number, finite or not. *)
Lemma Np_gtb_leb_excl (t : num) (k k' : Z) :
  k' <= k -> Np.gtb t (NInt k) = true -> Np.leb t (NInt k') = false.
Proof.
  intros Hk.
  destruct t as [z | [q | | |]]; simpl; try discriminate; try reflexivity.
  - rewrite Z.gtb_gt, Z.leb_gt. lia.
  - unfold Float.gtb, Float.of_Z. intros H. apply Float_ltb_FNum in H.
    destruct (Qle_bool q (inject_Z k')) eqn:E; [| reflexivity].
    apply Qle_bool_iff in E. rewrite Zle_Qle in Hk. lra.
Qed.

Lemma Int64_wrap_in_range (z : Z) : Int64.in_range z -> Int64.wrap z = z.
Proof.
  unfold Int64.in_range, Int64.wrap, Int64.min_signed, Int64.max_signed,
    Int64.modulus.
  intros H. rewrite Z.mod_small; lia.
Qed.

(** [t + 1] on a finite number that is at least 0 and below the largest
    [int64]: the exact successor, and positive. *)
Lemma Np_add_one_value (t : num) (n : Q) :
  Np.value t = Some n ->
  (0 <= n)%Q -> (n < inject_Z Int64.max_signed)%Q ->
  exists d, Np.to_float (Np.add t (NInt 1)) = FNum d
            /\ (d == n + 1)%Q /\ (0 < d)%Q.
Proof.
  destruct t as [z | [q | | |]]; simpl; intros H; inversion H; subst;
    intros L U.
  - assert (0 <= z /\ z < Int64.max_signed) as [Lz Uz].
    { change 0%Q with (inject_Z 0) in L.
      rewrite <- Zle_Qle in L. rewrite <- Zlt_Qlt in U. split; assumption. }
    rewrite Int64_wrap_in_range.
    + exists (inject_Z (z + 1)). split; [reflexivity |].
      rewrite inject_Z_plus. change (inject_Z 1) with 1%Q.
      split; [reflexivity | lra].
    + unfold Int64.in_range, Int64.min_signed, Int64.max_signed in *. lia.
  - exists (Qred (n + inject_Z 1)). split; [reflexivity |].
    rewrite Qred_correct. change (inject_Z 1) with 1%Q.
    split; [reflexivity | lra].
Qed.

(** True division of a finite number by a positive finite one. *)
Lemma Np_truediv_value (a b : num) (x d : Q) :
  Np.value a = Some x -> Np.to_float b = FNum d -> (0 < d)%Q ->
  exists y, Np.truediv a b = NFloat (FNum y) /\ (y == x / d)%Q.
Proof.
  intros Ha Hb Hd. unfold Np.truediv. rewrite Hb.
  assert (Np.to_float a = FNum x) as ->.
  { destruct a as [z | [q | | |]]; simpl in *; inversion Ha; reflexivity. }
  simpl. destruct (Qeq_bool d 0) eqn:E.
  - apply Qeq_bool_iff in E. lra.
  - exists (Qred (x / d)). split; [reflexivity | apply Qred_correct].
Qed.

(* ================================================================= *)
(** ** Properties of the transform *)

Section Transform.

Variable parse_number : string -> option num.
Variable py_str : num -> string.
Variable scaler_transform :
  float64 -> float64 -> float64 -> result (float64 * float64 * float64).

(** C8.  On every record the transform returns a row in which
    [IsNewCustomer], [IsEstablished] and [IsLoyalCustomer] are 0 or 1 and
    at most one of them is 1; for a finite tenure [x] they are 1 exactly
    when [x <= 12], [12 < x <= 24] and [48 < x], so that a tenure in
    (24, 48] gives three zeros. *)
Theorem tenure_flags (r : RawAttributeRecord) (t m tc sc : num)
        (t' m' tc' : float64) :
  numeric_fields parse_number r t m tc sc ->
  scaled scaler_transform t m tc t' m' tc' ->
  exists out new est loyal,
    preprocess_input parse_number py_str scaler_transform (input_df r) = Ok out
    /\ lookup "IsNewCustomer" out = int_cell new
    /\ lookup "IsEstablished" out = int_cell est
    /\ lookup "IsLoyalCustomer" out = int_cell loyal
    /\ (new = 0 \/ new = 1) /\ (est = 0 \/ est = 1)
    /\ (loyal = 0 \/ loyal = 1)
    /\ new + est + loyal <= 1
    /\ (forall x, Np.value t = Some x ->
          (new = 1 <-> (x <= 12)%Q)
          /\ (est = 1 <-> (12 < x)%Q /\ (x <= 24)%Q)
          /\ (loyal = 1 <-> (48 < x)%Q)
          /\ ((24 < x)%Q /\ (x <= 48)%Q -> new = 0 /\ est = 0 /\ loyal = 0)).
Proof.
  intros Hn Hs.
  exists (feature_vector r t m tc sc t' m' tc'),
    (if Np.leb t (NInt 12) then 1 else 0),
    (if Np.gtb t (NInt 12) && Np.leb t (NInt 24) then 1 else 0),
    (if Np.gtb t (NInt 48) then 1 else 0).
  split; [apply preprocess_input_record; assumption |].
  do 3 (split; [reflexivity |]).
  pose proof (Np_gtb_leb_excl t 12 12 ltac:(lia)) as E1.
  pose proof (Np_gtb_leb_excl t 48 12 ltac:(lia)) as E2.
  pose proof (Np_gtb_leb_excl t 48 24 ltac:(lia)) as E3.
  split; [destruct (Np.leb t (NInt 12)); auto |].
  split; [destruct (Np.gtb t (NInt 12) && Np.leb t (NInt 24)); auto |].
  split; [destruct (Np.gtb t (NInt 48)); auto |].
  split.
  - destruct (Np.gtb t (NInt 48)).
    + rewrite E2, E3 by reflexivity. rewrite andb_false_r. lia.
    + destruct (Np.gtb t (NInt 12)).
      * rewrite E1 by reflexivity. simpl. destruct (Np.leb t (NInt 24)); lia.
      * simpl. destruct (Np.leb t (NInt 12)); lia.
  - intros x Hx.
    pose proof (Np_leb_value t x 12 Hx) as L12.
    pose proof (Np_leb_value t x 24 Hx) as L24.
    pose proof (Np_gtb_value t x 12 Hx) as G12.
    pose proof (Np_gtb_value t x 48 Hx) as G48.
    change (inject_Z 12) with 12%Q in *. change (inject_Z 24) with 24%Q in *.
    change (inject_Z 48) with 48%Q in *.
    destruct (Np.leb t (NInt 12)) eqn:B1, (Np.gtb t (NInt 12)) eqn:B2,
      (Np.leb t (NInt 24)) eqn:B3, (Np.gtb t (NInt 48)) eqn:B4; simpl;
      repeat split; intros; try lia; try discriminate;
      repeat match goal with
        | H : true = true <-> _ |- _ =>
            let K := fresh in
            assert (K := proj1 H eq_refl); clear H
        | H : false = true <-> _ |- _ =>
            let K := fresh in
            assert (K := fun p => diff_false_true (proj2 H p)); clear H
        | H : _ /\ _ |- _ => destruct H
        end;
      try lra; exfalso; try lra; auto.
Qed.

(** C7.  On every record the transform returns a row in which
    [ChargePerTenureMonth] is [TotalCharges / (tenure + 1)],
    [ChargeTenureRatio] is [MonthlyCharges / (tenure + 1)] and
    [IsHighSpender] is 1 exactly when [MonthlyCharges > 70], strictly.  For
    finite inputs with a tenure from 0 up both ratios are finite and equal
    the exact quotients, the charge itself at tenure 0.  In particular
    tenure 12, monthly charges 70.0 and total charges 840.0 give 840/13,
    70/13, [IsHighSpender] 0 and [IsNewCustomer] 1. *)
Theorem charge_features (r : RawAttributeRecord) (t m tc sc : num)
        (t' m' tc' : float64) :
  numeric_fields parse_number r t m tc sc ->
  scaled scaler_transform t m tc t' m' tc' ->
  exists out,
    preprocess_input parse_number py_str scaler_transform (input_df r) = Ok out
    /\ lookup "ChargePerTenureMonth" out
       = Some (VNum (Np.truediv tc (Np.add t (NInt 1))))
    /\ lookup "ChargeTenureRatio" out
       = Some (VNum (Np.truediv m (Np.add t (NInt 1))))
    /\ lookup "IsHighSpender" out
       = Some (VNum (Np.of_bool (Np.gtb m (NInt 70))))
    /\ (forall y, Np.value m = Some y ->
          (lookup "IsHighSpender" out = int_cell 1 <-> (70 < y)%Q)
          /\ (lookup "IsHighSpender" out = int_cell 0 <-> (y <= 70)%Q))
    /\ (forall x y n,
          Np.value tc = Some x -> Np.value m = Some y ->
          Np.value t = Some n ->
          (0 <= n)%Q -> (n < inject_Z Int64.max_signed)%Q ->
          exists p q,
            lookup "ChargePerTenureMonth" out = Some (VNum (NFloat (FNum p)))
            /\ (p == x / (n + 1))%Q
            /\ lookup "ChargeTenureRatio" out = Some (VNum (NFloat (FNum q)))
            /\ (q == y / (n + 1))%Q
            /\ ((n == 0)%Q -> (p == x)%Q /\ (q == y)%Q))
    /\ (t = NInt 12 -> m = NFloat (FNum 70) -> tc = NFloat (FNum 840) ->
        lookup "ChargePerTenureMonth" out
        = Some (VNum (NFloat (FNum (840 # 13))))
        /\ lookup "ChargeTenureRatio" out
           = Some (VNum (NFloat (FNum (70 # 13))))
        /\ lookup "IsHighSpender" out = int_cell 0
        /\ lookup "IsNewCustomer" out = int_cell 1).
Proof.
  intros Hn Hs.
  exists (feature_vector r t m tc sc t' m' tc').
  split; [apply preprocess_input_record; assumption |].
  do 3 (split; [reflexivity |]).
  split; [| split].
  - intros y Hy.
    change (lookup "IsHighSpender" (feature_vector r t m tc sc t' m' tc'))
      with (Some (VNum (Np.of_bool (Np.gtb m (NInt 70))))).
    rewrite of_bool_cell_one, of_bool_cell_zero.
    pose proof (Np_gtb_value m y 70 Hy) as G.
    change (inject_Z 70) with 70%Q in G.
    split; [exact G |].
    destruct (Np.gtb m (NInt 70)); split; intros H;
      try reflexivity; try discriminate.
    + assert (70 < y)%Q by (apply G; reflexivity). lra.
    + destruct (Qlt_le_dec 70 y) as [L | L]; [| exact L].
      apply G in L. discriminate.
  - intros x y n Hx Hy Hv L U.
    destruct (Np_add_one_value t n Hv L U) as [d [Hd [Ed Pd]]].
    destruct (Np_truediv_value tc (Np.add t (NInt 1)) x d Hx Hd Pd)
      as [p [Hp Ep]].
    destruct (Np_truediv_value m (Np.add t (NInt 1)) y d Hy Hd Pd)
      as [q [Hq Eq]].
    exists p, q.
    change (lookup "ChargePerTenureMonth"
              (feature_vector r t m tc sc t' m' tc'))
      with (Some (VNum (Np.truediv tc (Np.add t (NInt 1))))).
    change (lookup "ChargeTenureRatio"
              (feature_vector r t m tc sc t' m' tc'))
      with (Some (VNum (Np.truediv m (Np.add t (NInt 1))))).
    rewrite Hp, Hq.
    split; [reflexivity |]. split; [rewrite Ep, Ed; reflexivity |].
    split; [reflexivity |]. split; [rewrite Eq, Ed; reflexivity |].
    intros Z0. rewrite Ep, Eq, Ed, Z0. split; field.
  - intros -> -> ->. repeat split; reflexivity.
Qed.

(** C6.  The scaler receives the raw [tenure], [MonthlyCharges] and
    [TotalCharges] and its image is written to these three columns, after
    feature engineering: scaling keeps the column list and every other
    column, so every other column of the returned row is the one computed
    before scaling, and the ratio features and threshold flags are the
    values computed from the raw inputs, whatever the scaler returns. *)
Theorem scaling_after_features (r : RawAttributeRecord) (t m tc sc : num)
        (t' m' tc' : float64) :
  numeric_fields parse_number r t m tc sc ->
  scaled scaler_transform t m tc t' m' tc' ->
  exists pre mid out,
    engineer parse_number py_str (input_df r) = Ok pre
    /\ scaling scaler_transform pre = Ok mid
    /\ align_columns mid = Ok out
    /\ preprocess_input parse_number py_str scaler_transform (input_df r)
       = Ok out
    /\ lookup "tenure" out = Some (VNum (NFloat t'))
    /\ lookup "MonthlyCharges" out = Some (VNum (NFloat m'))
    /\ lookup "TotalCharges" out = Some (VNum (NFloat tc'))
    /\ columns mid = columns pre
    /\ (forall c, ~ In c cols_to_scale -> lookup c mid = lookup c pre)
    /\ (forall c, In c expected_columns -> ~ In c cols_to_scale ->
          lookup c out
          = Some (match lookup c pre with
                  | Some v => v
                  | None => VNum (NInt 0)
                  end))
    /\ lookup "ChargePerTenureMonth" out
       = Some (VNum (Np.truediv tc (Np.add t (NInt 1))))
    /\ lookup "ChargeTenureRatio" out
       = Some (VNum (Np.truediv m (Np.add t (NInt 1))))
    /\ lookup "ServiceDensity" out
       = Some (VNum (Np.truediv (total_services r) (Np.add t (NInt 1))))
    /\ lookup "IsNewCustomer" out
       = Some (VNum (Np.of_bool (Np.leb t (NInt 12))))
    /\ lookup "IsEstablished" out
       = Some (VNum (Np.of_bool (Np.gtb t (NInt 12) && Np.leb t (NInt 24))))
    /\ lookup "IsLoyalCustomer" out
       = Some (VNum (Np.of_bool (Np.gtb t (NInt 48))))
    /\ lookup "IsHighSpender" out
       = Some (VNum (Np.of_bool (Np.gtb m (NInt 70))))
    /\ lookup "NewHighSpender" out
       = Some (VNum (Np.of_bool (Np.leb t (NInt 12) && Np.gtb m (NInt 70)))).
Proof.
  intros Hn Hs.
  pose proof (preprocess_input_record parse_number py_str scaler_transform
                r t m tc sc t' m' tc' Hn Hs) as P.
  pose proof P as P'.
  unfold preprocess_input, intermediate in P'.
  apply bind_ok_inv in P' as [mid [I A]].
  apply bind_ok_inv in I as [pre [E S]].
  exists pre, mid, (feature_vector r t m tc sc t' m' tc').
  do 4 (split; [assumption |]).
  do 3 (split; [reflexivity |]).
  destruct (scaling_frame scaler_transform pre mid S) as [C F].
  split; [exact C |]. split; [exact F |].
  split; [| repeat split; reflexivity].
  intros c Hc Hns.
  destruct (align_columns_spec mid) as [out' [A' [_ [V _]]]].
  rewrite A in A'. inversion A'; subst out'.
  rewrite (V c Hc), (F c Hns). reflexivity.
Qed.

(** C10.  On a one-row frame [get_dummies] with [drop_first] yields no
    indicator for any cell, so after the encodings none of the one-hot
    labels is a column; on every record the five indicator columns of the
    returned row are 0 and [HasAutoPay] is 0. *)
Theorem one_row_indicators_zero (r : RawAttributeRecord) (t m tc sc : num)
        (t' m' tc' : float64) :
  numeric_fields parse_number r t m tc sc ->
  scaled scaler_transform t m tc t' m' tc' ->
  (forall v prefix, get_dummies_1d py_str [v] prefix true = [])
  /\ exists enc out,
       encode py_str (input_df r) = Ok enc
       /\ (forall c, In c indicator_columns -> has_col c enc = false)
       /\ has_col "PaymentMethod_Bank transfer (automatic)" enc = false
       /\ preprocess_input parse_number py_str scaler_transform (input_df r)
          = Ok out
       /\ (forall c, In c indicator_columns -> lookup c out = int_cell 0)
       /\ lookup "HasAutoPay" out = int_cell 0.
Proof.
  intros Hn Hs.
  split; [intros v prefix; apply get_dummies_1d_one_row |].
  exists (encoded_frame r), (feature_vector r t m tc sc t' m' tc').
  split; [apply encode_record |].
  split.
  { intros c Hc. simpl in Hc.
    repeat (destruct Hc as [<- | Hc]; [reflexivity |]). contradiction. }
  split; [reflexivity |].
  split; [apply preprocess_input_record; assumption |].
  split; [| reflexivity].
  intros c Hc. simpl in Hc.
  repeat (destruct Hc as [<- | Hc]; [reflexivity |]). contradiction.
Qed.

(** Steps 1 to 7 on an arbitrary input frame: whenever steps 1 to 6 give
    an intermediate frame, the transform returns its alignment. *)
Lemma preprocess_input_aligned (df mid : frame) :
  intermediate parse_number py_str scaler_transform df = Ok mid ->
  exists out,
    preprocess_input parse_number py_str scaler_transform df = Ok out
    /\ columns out = expected_columns
    /\ (forall c, In c expected_columns ->
          lookup c out
          = Some (match lookup c mid with
                  | Some v => v
                  | None => VNum (NInt 0)
                  end))
    /\ (forall c, ~ In c expected_columns -> lookup c out = None).
Proof.
  intros I. unfold preprocess_input. rewrite I. simpl bind.
  apply align_columns_spec.
Qed.

Lemma expected_columns_NoDup : NoDup expected_columns.
Proof.
  unfold expected_columns.
  repeat (constructor;
          [simpl; intros H;
           repeat (destruct H as [H | H]; [discriminate H |]); exact H |]).
  constructor.
Qed.

(** C1.  On every record the transform returns a row of exactly 38
    columns, the expected columns in the documented order.  More generally,
    on any input frame for which steps 1 to 6 give an intermediate frame,
    the returned row has the expected columns in order, without duplicate:
    each holds the cell of the intermediate frame when that frame has the
    column and 0 when it has not, and no other column is returned. *)
Theorem output_schema :
  (forall (r : RawAttributeRecord) (t m tc sc : num) (t' m' tc' : float64),
      numeric_fields parse_number r t m tc sc ->
      scaled scaler_transform t m tc t' m' tc' ->
      exists out,
        preprocess_input parse_number py_str scaler_transform (input_df r)
        = Ok out
        /\ columns out = expected_columns
        /\ List.length out = 38%nat)
  /\ (forall df mid : frame,
        intermediate parse_number py_str scaler_transform df = Ok mid ->
        exists out,
          preprocess_input parse_number py_str scaler_transform df = Ok out
          /\ columns out = expected_columns
          /\ List.length out = 38%nat
          /\ NoDup (columns out)
          /\ (forall c, In c expected_columns ->
                lookup c out
                = Some (match lookup c mid with
                        | Some v => v
                        | None => VNum (NInt 0)
                        end))
          /\ (forall c, ~ In c expected_columns -> lookup c out = None)).
Proof.
  split.
  - intros r t m tc sc t' m' tc' Hn Hs.
    exists (feature_vector r t m tc sc t' m' tc').
    split; [apply preprocess_input_record; assumption |].
    split; reflexivity.
  - intros df mid I.
    destruct (preprocess_input_aligned df mid I) as [out [P [C [V N]]]].
    exists out. split; [exact P |]. split; [exact C |].
    split.
    { unfold columns in C.
      rewrite <- (length_map fst out), C. reflexivity. }
    split; [rewrite C; apply expected_columns_NoDup |].
    split; assumption.
Qed.

(** C4, amended.  A numeric field holding a string that is not a number
    makes the transform raise the [ValueError] of [pd.to_numeric], in the
    numeric-type step, before any derived feature is computed.  Categorical
    values are not validated: when the numeric fields are numbers the
    transform returns a row, in which a map-encoded field holds NaN when
    its value is outside the enumeration and an integer code otherwise. *)
Theorem validation_behaviour (r : RawAttributeRecord) :
  (unparsable parse_number r = true ->
   (df <- encode py_str (input_df r) ;; ensure_numeric_types parse_number df)
   = Raise (ValueError "Unable to parse string")
   /\ preprocess_input parse_number py_str scaler_transform (input_df r)
      = Raise (ValueError "Unable to parse string"))
  /\ (forall t m tc sc t' m' tc',
        numeric_fields parse_number r t m tc sc ->
        scaled scaler_transform t m tc t' m' tc' ->
        exists out,
          preprocess_input parse_number py_str scaler_transform (input_df r)
          = Ok out
          /\ forall label field enum,
               In (label, field, enum) encoded_fields ->
               (in_enum enum (field r) = false ->
                lookup label out = Some (VNum NaN))
               /\ (in_enum enum (field r) = true ->
                   exists z, lookup label out = int_cell z)).
Proof.
  split.
  - intros U.
    unfold preprocess_input, intermediate, engineer.
    rewrite encode_record. simpl bind.
    rewrite (ensure_numeric_types_raises parse_number r U).
    split; reflexivity.
  - intros t m tc sc t' m' tc' Hn Hs.
    exists (feature_vector r t m tc sc t' m' tc').
    split; [apply preprocess_input_record; assumption |].
    intros label field enum Hin. simpl in Hin.
    repeat (destruct Hin as [Hin | Hin];
            [inversion Hin; subst label field enum; clear Hin |]);
      [.. | contradiction];
      cbv [lookup feature_vector String.eqb Ascii.eqb Bool.eqb];
      match goal with
      | |- (in_enum _ ?v = _ -> _) /\ _ => destruct v as [s | n]
      end;
      unfold enc_service, enc_yes_no, enc_gender, enc_contract, map_values,
        replace_value, in_enum, yes_no;
      cbn -[String.eqb];
      try (split; [reflexivity | discriminate]);
      repeat match goal with
        | |- context [String.eqb ?a ?k] =>
            is_var a; rewrite (String.eqb_sym a k)
        end;
      repeat first
        [ progress cbn -[String.eqb]
        | match goal with
          | E : String.eqb _ _ = _ |- _ => rewrite E
          end
        | match goal with
          | |- context [String.eqb ?k ?a] =>
              is_var a; destruct (String.eqb k a) eqn:?
          end ];
      cbn; split; intros H; try discriminate H;
      try reflexivity; unfold int_cell; eauto.
Qed.

End Transform.

(* ================================================================= *)
(** ** The response of the form handler *)

(** C9.  For a probability [q] the risk tier is LOW below 0.4, MEDIUM
    from 0.4 and below 0.7, and HIGH from 0.7 on, where 0.4 and 0.7 are
    the values of the float literals the handler compares with; the
    decision is 1 exactly when the probability reaches the threshold; and
    the tier is the same whatever the threshold is.  In decimals: a
    probability from 7/10 up is HIGH and one below 4/10 is LOW; a
    [float64] probability (below 1/4, or from there on a multiple of
    2^-54) is LOW exactly below 4/10, and HIGH exactly from 7/10 up or at
    the float 0.7 itself. *)
Theorem risk_response (q : Q) (threshold : float64) :
  let p := FNum q in
  ((q < float_0_4)%Q -> risk_tier (respond p threshold) = risk_low)
  /\ ((float_0_4 <= q)%Q -> (q < float_0_7)%Q ->
      risk_tier (respond p threshold) = risk_medium)
  /\ ((float_0_7 <= q)%Q -> risk_tier (respond p threshold) = risk_high)
  /\ decision (respond p threshold)
     = (if Float.geb p threshold then 1 else 0)
  /\ (forall th, threshold = FNum th ->
        (decision (respond p threshold) = 1 <-> (th <= q)%Q)
        /\ (decision (respond p threshold) = 0 <-> (q < th)%Q))
  /\ (forall threshold',
        risk_tier (respond p threshold') = risk_tier (respond p threshold))
  /\ ((7 # 10 <= q)%Q -> risk_tier (respond p threshold) = risk_high)
  /\ ((q < 4 # 10)%Q -> risk_tier (respond p threshold) = risk_low)
  /\ ((q < 1 # 4)%Q \/ (exists n : Z, (q == n # 18014398509481984)%Q) ->
      (risk_tier (respond p threshold) = risk_low <-> (q < 4 # 10)%Q)
      /\ (risk_tier (respond p threshold) = risk_high
          <-> (7 # 10 <= q)%Q \/ (q == float_0_7)%Q)).
Proof.
  intros p.
  assert (forall n : Z, (q == n # 18014398509481984)%Q ->
            ((float_0_4 <= q)%Q <-> (4 # 10 <= q)%Q)
            /\ ((q < float_0_7)%Q
                <-> (q < 7 # 10)%Q /\ ~ (q == float_0_7)%Q)) as G.
  { intros n E. rewrite E. unfold float_0_4, float_0_7, Qle, Qlt, Qeq.
    simpl. lia. }
  unfold respond, risk_assessment, will_churn, p. simpl.
  unfold float_0_4, float_0_7 in *.
  destruct (Qle_bool (3152519739159347 # 4503599627370496) q) eqn:H7;
    destruct (Qle_bool (3602879701896397 # 9007199254740992) q) eqn:H4;
    try (apply Qle_bool_iff in H7); try (apply Qle_bool_iff in H4);
    try (assert (~ (3152519739159347 # 4503599627370496 <= q)%Q) as N7
          by (rewrite <- Qle_bool_iff; congruence));
    try (assert (~ (3602879701896397 # 9007199254740992 <= q)%Q) as N4
          by (rewrite <- Qle_bool_iff; congruence));
    (split; [intros; try reflexivity; lra |]);
    (split; [intros; try reflexivity; lra |]);
    (split; [intros; try reflexivity; lra |]);
    (split; [reflexivity |]);
    (split;
     [ intros th ->; simpl;
       destruct (Qle_bool th q) eqn:Ht;
       try (apply Qle_bool_iff in Ht);
       try (assert (~ (th <= q)%Q) as Nt
             by (rewrite <- Qle_bool_iff; congruence));
       repeat split; intros; try reflexivity; try discriminate; try lra;
       exfalso; lra |]);
    (split; [reflexivity |]);
    (split; [intros; try reflexivity; lra |]);
    (split; [intros; try reflexivity; lra |]);
    (intros [S | [n E]];
     [| destruct (G n E) as [G4 G7]];
     split; split; intros H; try reflexivity; try discriminate H;
     try lra; try tauto;
     try (exfalso; lra)).
Qed.

(* ================================================================= *)
(** ** The service count *)

Lemma enc_yes_no_valid (v : pyval) :
  in_enum ["Yes"; "No"] v = true ->
  enc_yes_no v = NInt 0 \/ enc_yes_no v = NInt 1.
Proof.
  destruct v as [s | n]; [| discriminate].
  unfold enc_yes_no, map_values, in_enum, yes_no. cbn -[String.eqb].
  destruct (String.eqb "Yes" s); [auto |].
  destruct (String.eqb "No" s); [auto | discriminate].
Qed.

Lemma enc_service_valid (sentinel : string) (v : pyval) :
  in_enum ["Yes"; "No"; sentinel] v = true ->
  enc_service sentinel v = NInt 0 \/ enc_service sentinel v = NInt 1.
Proof.
  destruct v as [s | n]; [| discriminate].
  unfold enc_service, map_values, replace_value, in_enum, yes_no.
  cbn -[String.eqb]. rewrite (String.eqb_sym s sentinel).
  destruct (String.eqb sentinel s); [cbn; auto |].
  cbn -[String.eqb].
  destruct (String.eqb "Yes" s); [auto |].
  destruct (String.eqb "No" s); [auto | discriminate].
Qed.

(** On a record with valid categories the computed [TotalServices] is the
    specified count when the customer has internet service, and one more
    than the specified count when [InternetService] is "No". *)
Lemma total_services_spec (r : RawAttributeRecord) :
  categorical_valid r = true ->
  total_services r
  = NInt (spec_total_services r
          + (if pyval_eqb (InternetService r) (VStr "No") then 1 else 0)).
Proof.
  unfold categorical_valid, encoded_fields. cbn -[in_enum].
  rewrite !andb_true_iff.
  intros [[(_ & _ & _ & Hph & _ & _ & Hos & Hob & Hdp & Hts & Htv & Hsm & _)
             _] _].
  unfold total_services, spec_total_services, spec_service_slots.
  destruct (enc_yes_no_valid _ Hph) as [-> | ->];
    destruct (enc_service_valid _ _ Hos) as [-> | ->];
    destruct (enc_service_valid _ _ Hob) as [-> | ->];
    destruct (enc_service_valid _ _ Hdp) as [-> | ->];
    destruct (enc_service_valid _ _ Hts) as [-> | ->];
    destruct (enc_service_valid _ _ Htv) as [-> | ->];
    destruct (enc_service_valid _ _ Hsm) as [-> | ->];
    destruct (pyval_eqb (InternetService r) (VStr "No")); reflexivity.
Qed.

(** The service features of the returned row: the computed count, its
    density over [tenure + 1] and the minimal-services flag. *)
Lemma service_features (parse_number : string -> option num)
      (py_str : num -> string)
      (scaler_transform :
         float64 -> float64 -> float64
         -> result (float64 * float64 * float64))
      (r : RawAttributeRecord) (t m tc sc : num) (t' m' tc' : float64) :
  numeric_fields parse_number r t m tc sc ->
  scaled scaler_transform t m tc t' m' tc' ->
  exists out,
    preprocess_input parse_number py_str scaler_transform (input_df r) = Ok out
    /\ lookup "TotalServices" out = Some (VNum (total_services r))
    /\ lookup "ServiceDensity" out
       = Some (VNum (Np.truediv (total_services r) (Np.add t (NInt 1))))
    /\ lookup "HasMinimalServices" out
       = Some (VNum (Np.of_bool (Np.leb (total_services r) (NInt 2))))
    /\ (categorical_valid r = true ->
        pyval_eqb (InternetService r) (VStr "No") = false ->
        total_services r = NInt (spec_total_services r)).
Proof.
  intros Hn Hs. exists (feature_vector r t m tc sc t' m' tc').
  split; [apply preprocess_input_record; assumption |].
  do 3 (split; [reflexivity |]).
  intros V I. rewrite (total_services_spec r V), I, Z.add_0_r. reflexivity.
Qed.

(* ================================================================= *)
(** ** The one-row defect at concrete inputs *)

(** [HighRiskProfile], [PaperlessElectronicCheck], [HasAutoPay] and
    [FiberNoAddons] are 0 on every record. *)
Lemma indicator_features_zero (r : RawAttributeRecord) (t m tc sc : num)
      (t' m' tc' : float64) (c : string) :
  In c ["HighRiskProfile"; "PaperlessElectronicCheck"; "HasAutoPay";
        "FiberNoAddons"] ->
  lookup c (feature_vector r t m tc sc t' m' tc') = int_cell 0.
Proof.
  intros H. simpl in H.
  repeat (destruct H as [<- | H];
          [cbv [lookup feature_vector String.eqb Ascii.eqb Bool.eqb];
           rewrite ?andb_false_r; reflexivity |]).
  contradiction.
Qed.

(** C2, evaluated.  For a customer with fiber optic internet paying by
    electronic check the returned indicators of these two non-baseline
    categories are 0, not 1. *)
Theorem one_hot_indicator_not_emitted :
  let r := input_dict high_risk_form in
  InternetService r = VStr "Fiber optic"
  /\ PaymentMethod r = VStr "Electronic check"
  /\ exists out,
       preprocess_input no_number no_label example_scaler (input_df r)
       = Ok out
       /\ lookup "InternetService_Fiber optic" out = int_cell 0
       /\ lookup "PaymentMethod_Electronic check" out = int_cell 0.
Proof.
  split; [reflexivity |]. split; [reflexivity |].
  eexists. split; [vm_compute; reflexivity |].
  split; reflexivity.
Qed.

(** C3, evaluated.  On the end-to-end scenario of the specification
    (month-to-month contract, fiber optic, electronic check) the specified
    conjunction holds and yet [HighRiskProfile] is 0, as is
    [FiberNoAddons]; the flags that do not read an indicator are set. *)
Theorem high_risk_profile_not_set :
  let r := input_dict high_risk_form in
  spec_high_risk r = true
  /\ exists out,
       preprocess_input no_number no_label example_scaler (input_df r)
       = Ok out
       /\ lookup "HighRiskProfile" out = int_cell 0
       /\ lookup "FiberNoAddons" out = int_cell 0
       /\ lookup "NewHighSpender" out = int_cell 1
       /\ lookup "IsNewCustomer" out = int_cell 1.
Proof.
  split; [reflexivity |].
  eexists. split; [vm_compute; reflexivity |].
  repeat split; reflexivity.
Qed.

(** C5, evaluated.  For a customer without internet service the specified
    count is 1 (the phone line) and the computed [TotalServices] is 2: the
    internet slot counts as 1. *)
Theorem total_services_no_internet :
  let r := input_dict no_internet_form in
  categorical_valid r = true
  /\ InternetService r = VStr "No"
  /\ spec_total_services r = 1
  /\ exists out,
       preprocess_input no_number no_label example_scaler (input_df r)
       = Ok out
       /\ lookup "TotalServices" out = int_cell 2
       /\ lookup "ServiceDensity" out = Some (VNum (NFloat (FNum (2 # 31))))
       /\ lookup "HasMinimalServices" out = int_cell 1.
Proof.
  split; [reflexivity |]. split; [reflexivity |]. split; [reflexivity |].
  eexists. split; [vm_compute; reflexivity |].
  repeat split; reflexivity.
Qed.

(** C4, refuted as stated.  A record whose [gender] and [Contract] are
    outside their enumerations is not rejected: the transform returns a
    row, with NaN in both columns. *)
Lemma out_of_enum_not_rejected :
  categorical_valid out_of_enum_record = false
  /\ in_enum ["Female"; "Male"] (gender out_of_enum_record) = false
  /\ is_ok (preprocess_input no_number no_label example_scaler
              (input_df out_of_enum_record)) = true
  /\ exists out,
       preprocess_input no_number no_label example_scaler
         (input_df out_of_enum_record) = Ok out
       /\ lookup "gender" out = Some (VNum NaN)
       /\ lookup "Contract" out = Some (VNum NaN).
Proof.
  split; [reflexivity |]. split; [reflexivity |]. split; [reflexivity |].
  eexists. split; [vm_compute; reflexivity |].
  split; reflexivity.
Qed.

(* ================================================================= *)
(** ** The theorems at a concrete record *)

Lemma example_numeric_fields :
  numeric_fields no_number (input_dict example_form)
                 (NInt 12) (NFloat (FNum 70)) (NFloat (FNum 840)) (NInt 0).
Proof. repeat split; reflexivity. Defined.

Lemma example_scaled :
  scaled example_scaler (NInt 12) (NFloat (FNum 70)) (NFloat (FNum 840))
         (FNum (-5 # 6)) (FNum (1 # 6)) (FNum (-720 # 1133)).
Proof. reflexivity. Defined.

Lemma tenure_flags_witness :
  numeric_fields no_number (input_dict example_form)
                 (NInt 12) (NFloat (FNum 70)) (NFloat (FNum 840)) (NInt 0)
  /\ scaled example_scaler (NInt 12) (NFloat (FNum 70)) (NFloat (FNum 840))
            (FNum (-5 # 6)) (FNum (1 # 6)) (FNum (-720 # 1133))
  /\ exists out new est loyal,
       preprocess_input no_number no_label example_scaler
         (input_df (input_dict example_form)) = Ok out
       /\ lookup "IsNewCustomer" out = int_cell new
       /\ lookup "IsEstablished" out = int_cell est
       /\ lookup "IsLoyalCustomer" out = int_cell loyal
       /\ new + est + loyal <= 1.
Proof.
  split; [exact example_numeric_fields |].
  split; [exact example_scaled |].
  destruct (tenure_flags no_number no_label example_scaler
              (input_dict example_form) _ _ _ _ _ _ _
              example_numeric_fields example_scaled)
    as (out & new & est & loyal & P & N & E & L & _ & _ & _ & S & _).
  exists out, new, est, loyal. repeat split; assumption.
Defined.

Lemma charge_features_witness :
  numeric_fields no_number (input_dict example_form)
                 (NInt 12) (NFloat (FNum 70)) (NFloat (FNum 840)) (NInt 0)
  /\ scaled example_scaler (NInt 12) (NFloat (FNum 70)) (NFloat (FNum 840))
            (FNum (-5 # 6)) (FNum (1 # 6)) (FNum (-720 # 1133))
  /\ exists out,
       preprocess_input no_number no_label example_scaler
         (input_df (input_dict example_form)) = Ok out
       /\ lookup "ChargePerTenureMonth" out
          = Some (VNum (NFloat (FNum (840 # 13))))
       /\ lookup "ChargeTenureRatio" out
          = Some (VNum (NFloat (FNum (70 # 13))))
       /\ lookup "IsHighSpender" out = int_cell 0
       /\ lookup "IsNewCustomer" out = int_cell 1.
Proof.
  split; [exact example_numeric_fields |].
  split; [exact example_scaled |].
  destruct (charge_features no_number no_label example_scaler
              (input_dict example_form) _ _ _ _ _ _ _
              example_numeric_fields example_scaled)
    as (out & P & _ & _ & _ & _ & _ & X).
  exists out. split; [exact P |].
  exact (X eq_refl eq_refl eq_refl).
Defined.

Lemma scaling_after_features_witness :
  numeric_fields no_number (input_dict example_form)
                 (NInt 12) (NFloat (FNum 70)) (NFloat (FNum 840)) (NInt 0)
  /\ scaled example_scaler (NInt 12) (NFloat (FNum 70)) (NFloat (FNum 840))
            (FNum (-5 # 6)) (FNum (1 # 6)) (FNum (-720 # 1133))
  /\ exists out,
       preprocess_input no_number no_label example_scaler
         (input_df (input_dict example_form)) = Ok out
       /\ lookup "tenure" out = Some (VNum (NFloat (FNum (-5 # 6))))
       /\ lookup "ChargePerTenureMonth" out
          = Some (VNum (Np.truediv (NFloat (FNum 840))
                                   (Np.add (NInt 12) (NInt 1)))).
Proof.
  split; [exact example_numeric_fields |].
  split; [exact example_scaled |].
  destruct (scaling_after_features no_number no_label example_scaler
              (input_dict example_form) _ _ _ _ _ _ _
              example_numeric_fields example_scaled)
    as (pre & mid & out & _ & _ & _ & P & T & _ & _ & _ & _ & _ & C & _).
  exists out. repeat split; assumption.
Defined.

Lemma one_row_indicators_zero_witness :
  numeric_fields no_number (input_dict high_risk_form)
                 (NInt 3) (NFloat (FNum 95)) (NFloat (FNum 285)) (NInt 0)
  /\ scaled example_scaler (NInt 3) (NFloat (FNum 95)) (NFloat (FNum 285))
            (FNum (-29 # 24)) (FNum 1) (FNum (-1995 # 2266))
  /\ exists out,
       preprocess_input no_number no_label example_scaler
         (input_df (input_dict high_risk_form)) = Ok out
       /\ lookup "InternetService_Fiber optic" out = int_cell 0
       /\ lookup "HasAutoPay" out = int_cell 0.
Proof.
  assert (numeric_fields no_number (input_dict high_risk_form)
            (NInt 3) (NFloat (FNum 95)) (NFloat (FNum 285)) (NInt 0)) as Hn
    by (repeat split; reflexivity).
  assert (scaled example_scaler (NInt 3) (NFloat (FNum 95))
            (NFloat (FNum 285))
            (FNum (-29 # 24)) (FNum 1) (FNum (-1995 # 2266))) as Hs
    by reflexivity.
  split; [exact Hn |]. split; [exact Hs |].
  destruct (one_row_indicators_zero no_number no_label example_scaler
              (input_dict high_risk_form) _ _ _ _ _ _ _ Hn Hs)
    as (_ & enc & out & _ & _ & _ & P & Z & A).
  exists out. split; [exact P |]. split; [| exact A].
  apply Z. left. reflexivity.
Defined.

Lemma output_schema_witness :
  numeric_fields no_number (input_dict example_form)
                 (NInt 12) (NFloat (FNum 70)) (NFloat (FNum 840)) (NInt 0)
  /\ scaled example_scaler (NInt 12) (NFloat (FNum 70)) (NFloat (FNum 840))
            (FNum (-5 # 6)) (FNum (1 # 6)) (FNum (-720 # 1133))
  /\ (exists out,
        preprocess_input no_number no_label example_scaler
          (input_df (input_dict example_form)) = Ok out
        /\ columns out = expected_columns
        /\ List.length out = 38%nat)
  /\ is_ok (intermediate no_number no_label example_scaler
              (("customerID", VStr "7590-VHVEG")
                 :: input_df (input_dict example_form))) = true
  /\ (exists out,
        preprocess_input no_number no_label example_scaler
          (("customerID", VStr "7590-VHVEG")
             :: input_df (input_dict example_form)) = Ok out
        /\ columns out = expected_columns
        /\ lookup "customerID" out = None
        /\ lookup "InternetService_No" out = int_cell 0).
Proof.
  split; [exact example_numeric_fields |].
  split; [exact example_scaled |].
  split.
  { exact (proj1 (output_schema no_number no_label example_scaler)
             (input_dict example_form) _ _ _ _ _ _ _
             example_numeric_fields example_scaled). }
  split; [reflexivity |].
  destruct (intermediate no_number no_label example_scaler
              (("customerID", VStr "7590-VHVEG")
                 :: input_df (input_dict example_form))) as [mid | e] eqn:I;
    [| vm_compute in I; discriminate I].
  destruct (proj2 (output_schema no_number no_label example_scaler)
              _ mid I) as (out & P & C & _ & _ & V & N).
  exists out. split; [exact P |]. split; [exact C |].
  split.
  - apply N. simpl. intros H.
    repeat (destruct H as [H | H]; [discriminate H |]). exact H.
  - rewrite V by (simpl; tauto).
    vm_compute in I. inversion I. reflexivity.
Defined.

Lemma validation_behaviour_witness :
  unparsable no_number unparsable_record = true
  /\ preprocess_input no_number no_label example_scaler
       (input_df unparsable_record)
     = Raise (ValueError "Unable to parse string")
  /\ numeric_fields no_number out_of_enum_record
       (NInt 12) (NFloat (FNum 70)) (NFloat (FNum 840)) (NInt 0)
  /\ in_enum ["Female"; "Male"] (gender out_of_enum_record) = false
  /\ exists out,
       preprocess_input no_number no_label example_scaler
         (input_df out_of_enum_record) = Ok out
       /\ lookup "gender" out = Some (VNum NaN).
Proof.
  split; [reflexivity |].
  split.
  { exact (proj2 (proj1 (validation_behaviour no_number no_label
                           example_scaler unparsable_record) eq_refl)). }
  assert (numeric_fields no_number out_of_enum_record
            (NInt 12) (NFloat (FNum 70)) (NFloat (FNum 840)) (NInt 0)) as Hn
    by (repeat split; reflexivity).
  split; [exact Hn |]. split; [reflexivity |].
  destruct (proj2 (validation_behaviour no_number no_label example_scaler
                     out_of_enum_record) _ _ _ _ _ _ _ Hn example_scaled)
    as (out & P & F).
  exists out. split; [exact P |].
  apply (F "gender" gender ["Female"; "Male"]); [left; reflexivity |].
  reflexivity.
Defined.

(* ================================================================= *)
(** ** The stages on an arbitrary one-row frame *)

Lemma In_columns_lookup (c : string) (df : frame) :
  In c (columns df) <-> lookup c df <> None.
Proof.
  rewrite <- has_col_lookup. unfold has_col.
  symmetry. apply existsb_eqb_In.
Qed.

Lemma lookup_some_In (c : string) (df : frame) (v : pyval) :
  lookup c df = Some v -> In c (columns df).
Proof. intros H. apply In_columns_lookup. congruence. Qed.

Lemma columns_drop (cols : list string) (df : frame) :
  columns (drop cols df)
  = filter (fun c => negb (existsb (String.eqb c) cols)) (columns df).
Proof.
  unfold columns, drop.
  induction df as [| [k v] rest IH]; simpl; [reflexivity |].
  destruct (negb (existsb (String.eqb k) cols)); simpl; rewrite IH;
    reflexivity.
Qed.

Lemma lookup_drop (cols : list string) (df : frame) (c : string) :
  lookup c (drop cols df)
  = if existsb (String.eqb c) cols then None else lookup c df.
Proof.
  unfold drop. induction df as [| [k v] rest IH]; cbn [filter lookup fst].
  - destruct (existsb (String.eqb c) cols); reflexivity.
  - destruct (existsb (String.eqb k) cols) eqn:X; cbn [negb lookup].
    + rewrite IH. destruct (String.eqb k c) eqn:E; [| reflexivity].
      apply String.eqb_eq in E. subst k. rewrite X. reflexivity.
    + rewrite IH. destruct (String.eqb k c) eqn:E; [| reflexivity].
      apply String.eqb_eq in E. subst k. rewrite X. reflexivity.
Qed.

Lemma updates_setitem (df : frame) (c : string) (v w : pyval) :
  lookup c df = Some v -> updates c df (setitem df c w).
Proof.
  intros L. split; [eapply lookup_some_In; eassumption |].
  split; [apply columns_setitem_present; congruence |].
  intros c' N. apply lookup_setitem_neq. congruence.
Qed.

Lemma map_col_updates (df df' : frame) (c : string) (d : list (string * Z)) :
  map_col df c d = Ok df' -> updates c df df'.
Proof.
  unfold map_col. intros H. apply bind_ok_inv in H as [v [G H]].
  inversion H; subst df'. apply getitem_ok_lookup in G.
  eapply updates_setitem; eassumption.
Qed.

Lemma replace_col_updates (df df' : frame) (c old new : string) :
  replace_col df c old new = Ok df' -> updates c df df'.
Proof.
  unfold replace_col. intros H. apply bind_ok_inv in H as [v [G H]].
  inversion H; subst df'. apply getitem_ok_lookup in G.
  eapply updates_setitem; eassumption.
Qed.

Lemma to_numeric_col_updates (parse_number : string -> option num)
      (df df' : frame) (c : string) :
  to_numeric_col parse_number df c = Ok df' -> updates c df df'.
Proof.
  unfold to_numeric_col. intros H. apply bind_ok_inv in H as [v [G H]].
  apply bind_ok_inv in H as [n [_ H]].
  inversion H; subst df'. apply getitem_ok_lookup in G.
  eapply updates_setitem; eassumption.
Qed.

Lemma updates_all_spec (cs : list string) (df df' : frame) :
  updates_all cs df df' ->
  (forall c, In c cs -> In c (columns df))
  /\ columns df' = columns df
  /\ forall c', ~ In c' cs -> lookup c' df' = lookup c' df.
Proof.
  induction 1 as [df | c cs df df1 df' [I [C K]] _ [IHI [IHC IHK]]].
  - split; [intros c [] | split; [reflexivity | intros; reflexivity]].
  - split; [| split].
    + intros x [<- | Hx]; [exact I |]. rewrite <- C. apply IHI, Hx.
    + congruence.
    + intros c' N. rewrite IHK, K; [reflexivity | |]; intros E; apply N;
        simpl; auto.
Qed.

Ltac run_updates :=
  repeat match goal with
    | H : bind _ _ = Ok _ |- _ =>
        let x := fresh "df" in
        let G := fresh "G" in
        apply bind_ok_inv in H as [x [G H]]
    end;
  repeat match goal with
    | H : map_col _ _ _ = Ok _ |- _ => apply map_col_updates in H
    | H : replace_col _ _ _ _ = Ok _ |- _ => apply replace_col_updates in H
    | H : to_numeric_col _ _ _ = Ok _ |- _ =>
        apply to_numeric_col_updates in H
    end;
  repeat (eapply updates_cons; [eassumption |]);
  apply updates_nil.

Lemma binary_encoding_updates (df df' : frame) :
  binary_encoding df = Ok df' ->
  updates_all ["gender"; "Partner"; "Dependents"; "PhoneService";
               "PaperlessBilling"] df df'.
Proof. unfold binary_encoding. intros H. run_updates. Qed.

Lemma handle_no_service_updates (df df' : frame) :
  handle_no_service df = Ok df' ->
  updates_all ["MultipleLines"; "OnlineSecurity"; "OnlineBackup";
               "DeviceProtection"; "TechSupport"; "StreamingTV";
               "StreamingMovies";
               "MultipleLines"; "OnlineSecurity"; "OnlineBackup";
               "DeviceProtection"; "TechSupport"; "StreamingTV";
               "StreamingMovies"] df df'.
Proof. unfold handle_no_service. intros H. run_updates. Qed.

Lemma ordinal_encoding_updates (df df' : frame) :
  ordinal_encoding df = Ok df' -> updates_all ["Contract"] df df'.
Proof. unfold ordinal_encoding. intros H. run_updates. Qed.

Lemma ensure_numeric_types_updates (parse_number : string -> option num)
      (df df' : frame) :
  ensure_numeric_types parse_number df = Ok df' ->
  updates_all ["tenure"; "MonthlyCharges"; "TotalCharges"; "SeniorCitizen"]
              df df'.
Proof. unfold ensure_numeric_types. intros H. run_updates. Qed.

Lemma select_ok_In (cols : list string) (df data : frame) :
  select cols df = Ok data ->
  columns data = cols /\ forall c, In c cols -> In c (columns df).
Proof.
  revert data. induction cols as [| c rest IH]; simpl; intros data H.
  - inversion H. split; [reflexivity | contradiction].
  - apply bind_ok_inv in H as [v [G H]].
    apply bind_ok_inv in H as [sel [S H]]. inversion H; subst data.
    destruct (IH sel S) as [C I].
    split; [simpl; rewrite C; reflexivity |].
    intros x [<- | Hx]; [| apply I, Hx].
    apply getitem_ok_lookup in G. eapply lookup_some_In; eassumption.
Qed.

(** On a one-row frame the one-hot step only removes the two columns. *)
Lemma one_hot_encoding_one_row (py_str : num -> string) (df df' : frame) :
  one_hot_encoding py_str df = Ok df' ->
  In "InternetService" (columns df) /\ In "PaymentMethod" (columns df)
  /\ df' = drop ["InternetService"; "PaymentMethod"] df.
Proof.
  unfold one_hot_encoding, get_dummies. intros H.
  apply bind_ok_inv in H as [data [S H]].
  destruct (select_ok_In _ _ _ S) as [_ I].
  split; [apply I; simpl; auto |]. split; [apply I; simpl; auto |].
  assert (forall l : frame,
             flat_map
               (fun cv : string * pyval =>
                  map (fun d : string * list num =>
                         (fst d, VNum (hd (NInt 0) (snd d))))
                      (get_dummies_1d py_str [snd cv] (fst cv) true)) l
             = []) as E.
  { induction l as [| x l IH]; simpl; [reflexivity |].
    rewrite get_dummies_1d_one_row, IH. reflexivity. }
  rewrite E, app_nil_r in H. inversion H. reflexivity.
Qed.

(** X2.  Steps 1 to 4 on any one-row frame: the columns read must be there;
    the result has the columns of the input in the same order, less the
    two one-hot columns, with no column added; and a column that no
    encoding maps keeps its cell. *)
Theorem encode_frame (py_str : num -> string) (df df' : frame) :
  encode py_str df = Ok df' ->
  (forall c, In c (firstn 15 raw_columns) -> In c (columns df))
  /\ columns df'
     = filter (fun c => negb (existsb (String.eqb c)
                                ["InternetService"; "PaymentMethod"]))
              (columns df)
  /\ (forall c, ~ In c (map (fun f => fst (fst f)) encoded_fields) ->
        lookup c df'
        = if existsb (String.eqb c) ["InternetService"; "PaymentMethod"]
          then None else lookup c df).
Proof.
  unfold encode. intros H.
  apply bind_ok_inv in H as [d1 [H1 H]].
  apply bind_ok_inv in H as [d2 [H2 H]].
  apply bind_ok_inv in H as [d3 [H3 H]].
  apply binary_encoding_updates, updates_all_spec in H1.
  apply handle_no_service_updates, updates_all_spec in H2.
  apply ordinal_encoding_updates, updates_all_spec in H3.
  apply one_hot_encoding_one_row in H.
  destruct H1 as [I1 [C1 K1]], H2 as [I2 [C2 K2]], H3 as [I3 [C3 K3]],
    H as [I4 [I5 ->]].
  rewrite C3, C2, C1 in I4, I5. rewrite C2, C1 in I3. rewrite C1 in I2.
  split; [| split].
  - intros c Hc. simpl in Hc.
    repeat (destruct Hc as [<- | Hc];
            [first [ apply I1; simpl; tauto | apply I2; simpl; tauto
                   | apply I3; simpl; tauto | assumption ] |]).
    contradiction.
  - rewrite columns_drop, C3, C2, C1. reflexivity.
  - intros c N. rewrite lookup_drop.
    destruct (existsb (String.eqb c) ["InternetService"; "PaymentMethod"]);
      [reflexivity |].
    rewrite K3, K2, K1; [reflexivity | | |]; intros Hc; apply N; simpl in *;
      tauto.
Qed.

(** X1.  The transform returns a row only for a frame that has all 19 raw
    columns: with any of them absent it raises. *)
Theorem raw_columns_required (parse_number : string -> option num)
        (py_str : num -> string)
        (scaler_transform :
           float64 -> float64 -> float64
           -> result (float64 * float64 * float64))
        (df out : frame) :
  preprocess_input parse_number py_str scaler_transform df = Ok out ->
  forall c, In c raw_columns -> In c (columns df).
Proof.
  unfold preprocess_input, intermediate, engineer. intros H.
  apply bind_ok_inv in H as [mid [H _]].
  apply bind_ok_inv in H as [pre [H _]].
  apply bind_ok_inv in H as [enc [E H]].
  apply bind_ok_inv in H as [nums [N _]].
  destruct (encode_frame py_str df enc E) as [I [C _]].
  apply ensure_numeric_types_updates, updates_all_spec in N.
  destruct N as [IN _].
  intros c Hc. simpl in Hc.
  do 15 (destruct Hc as [<- | Hc]; [apply I; simpl; tauto |]).
  assert (In c (columns enc)) as Hin by (apply IN; simpl; tauto).
  rewrite C in Hin. apply filter_In in Hin. tauto.
Qed.

(** X3.  Feature engineering on any frame: a column that is not one of the 16
    derived columns keeps its cell, every derived column is there
    afterwards, and no column is removed. *)
Theorem derived_features_frame (df df' : frame) :
  derived_features df = Ok df' ->
  (forall c, ~ In c derived_columns -> lookup c df' = lookup c df)
  /\ (forall c, In c derived_columns -> In c (columns df'))
  /\ (forall c, In c (columns df) -> In c (columns df')).
Proof.
  unfold derived_features. intros H.
  repeat (apply bind_ok_inv in H as [? [_ H]]; cbv beta zeta in H).
  inversion H; subst df'; clear H. unfold assign.
  split; [| split].
  - intros c N.
    rewrite !lookup_setitem_neq; [reflexivity | ..];
      intros E; apply N; subst c; simpl; tauto.
  - intros c Hc. apply In_columns_lookup. simpl in Hc.
    repeat (destruct Hc as [<- | Hc];
            [repeat (rewrite lookup_setitem_neq by discriminate);
             rewrite lookup_setitem_eq; discriminate |]).
    contradiction.
  - intros c Hc.
    destruct (in_dec string_dec c derived_columns) as [D | D].
    + apply In_columns_lookup. simpl in D.
      repeat (destruct D as [<- | D];
              [repeat (rewrite lookup_setitem_neq by discriminate);
               rewrite lookup_setitem_eq; discriminate |]).
      contradiction.
    + apply In_columns_lookup.
      rewrite !lookup_setitem_neq;
        [apply In_columns_lookup; exact Hc | ..];
        intros E; apply D; subst c; simpl; tauto.
Qed.

(* ================================================================= *)
(** ** More on the transform of a record *)

Lemma enc_yes_no_cases (v : pyval) :
  (v = VStr "Yes" /\ enc_yes_no v = NInt 1)
  \/ (v = VStr "No" /\ enc_yes_no v = NInt 0)
  \/ (in_enum ["Yes"; "No"] v = false /\ enc_yes_no v = NaN).
Proof.
  destruct v as [s | n]; [| right; right; split; reflexivity].
  unfold enc_yes_no, map_values, in_enum, yes_no. cbn -[String.eqb].
  destruct (String.eqb "Yes" s) eqn:Y.
  { apply String.eqb_eq in Y. subst s. left. split; reflexivity. }
  destruct (String.eqb "No" s) eqn:N.
  { apply String.eqb_eq in N. subst s. right. left. split; reflexivity. }
  right. right. split; reflexivity.
Qed.

Lemma enc_service_cases (sentinel : string) (v : pyval) :
  (v = VStr "Yes" /\ enc_service sentinel v = NInt 1)
  \/ ((v = VStr "No" \/ v = VStr sentinel) /\ enc_service sentinel v = NInt 0)
  \/ (in_enum ["Yes"; "No"; sentinel] v = false
      /\ enc_service sentinel v = NaN).
Proof.
  destruct v as [s | n]; [| right; right; split; reflexivity].
  unfold enc_service, map_values, replace_value, in_enum, yes_no.
  cbn -[String.eqb]. rewrite (String.eqb_sym s sentinel).
  destruct (String.eqb sentinel s) eqn:S.
  { apply String.eqb_eq in S. subst s. right. left.
    split; [right; reflexivity | reflexivity]. }
  cbn -[String.eqb].
  destruct (String.eqb "Yes" s) eqn:Y.
  { apply String.eqb_eq in Y. subst s. left. split; reflexivity. }
  destruct (String.eqb "No" s) eqn:N.
  { apply String.eqb_eq in N. subst s. right. left.
    split; [left; reflexivity | reflexivity]. }
  right. right. split; reflexivity.
Qed.

Lemma Np_add_nan_l (x : num) : Np.add NaN x = NaN.
Proof. reflexivity. Qed.

Lemma Np_add_nan_r (x : num) : Np.add x NaN = NaN.
Proof. destruct x as [z | [q | | |]]; reflexivity. Qed.

Section Record_facts.

Variable parse_number : string -> option num.
Variable py_str : num -> string.
Variable scaler_transform :
  float64 -> float64 -> float64 -> result (float64 * float64 * float64).

Lemma preprocess_input_unparsable (r : RawAttributeRecord) :
  unparsable parse_number r = true ->
  preprocess_input parse_number py_str scaler_transform (input_df r)
  = Raise (ValueError "Unable to parse string").
Proof.
  intros U. unfold preprocess_input, intermediate, engineer.
  rewrite encode_record. simpl bind.
  rewrite (ensure_numeric_types_raises parse_number r U). reflexivity.
Qed.

(** X4.  The transform returns a row exactly when the four numeric fields are
    numbers and the scaler returns on them; an exception of the scaler
    comes out unchanged.  No categorical cell can make it raise. *)
Theorem preprocess_input_returns (r : RawAttributeRecord) :
  (is_ok (preprocess_input parse_number py_str scaler_transform (input_df r))
   = true
   <-> exists t m tc sc,
         numeric_fields parse_number r t m tc sc
         /\ is_ok (scaler_transform (Np.to_float t) (Np.to_float m)
                     (Np.to_float tc)) = true)
  /\ (forall t m tc sc e,
        numeric_fields parse_number r t m tc sc ->
        scaler_transform (Np.to_float t) (Np.to_float m) (Np.to_float tc)
        = Raise e ->
        preprocess_input parse_number py_str scaler_transform (input_df r)
        = Raise e).
Proof.
  split; [split |].
  - intros H. destruct (unparsable parse_number r) eqn:U.
    + rewrite (preprocess_input_unparsable r U) in H. discriminate.
    + destruct (numeric_fields_total parse_number r U)
        as (t & m & tc & sc & Hn).
      exists t, m, tc, sc. split; [exact Hn |].
      rewrite (preprocess_input_numeric parse_number py_str scaler_transform
                 r t m tc sc Hn) in H.
      destruct (scaler_transform _ _ _); [reflexivity | discriminate].
  - intros (t & m & tc & sc & Hn & S).
    rewrite (preprocess_input_numeric parse_number py_str scaler_transform
               r t m tc sc Hn).
    destruct (scaler_transform _ _ _) as [[[a b] c] | e];
      [reflexivity | discriminate].
  - intros t m tc sc e Hn S.
    rewrite (preprocess_input_numeric parse_number py_str scaler_transform
               r t m tc sc Hn), S.
    reflexivity.
Qed.

(** X5.  The cells of [InternetService] and [PaymentMethod] have no effect on
    the result of the transform, row or exception. *)
Theorem one_hot_fields_ignored (r : RawAttributeRecord)
        (internet payment : pyval) :
  preprocess_input parse_number py_str scaler_transform
    (input_df (with_one_hot_fields r internet payment))
  = preprocess_input parse_number py_str scaler_transform (input_df r).
Proof.
  destruct (unparsable parse_number r) eqn:U.
  - rewrite (preprocess_input_unparsable r U).
    apply preprocess_input_unparsable. exact U.
  - destruct (numeric_fields_total parse_number r U)
      as (t & m & tc & sc & Hn).
    rewrite (preprocess_input_numeric parse_number py_str scaler_transform
               r t m tc sc Hn).
    apply (preprocess_input_numeric parse_number py_str scaler_transform
             (with_one_hot_fields r internet payment) t m tc sc).
    exact Hn.
Qed.

(** X6.  The codes of the returned row.  [gender] is 0 for "Female" and 1 for
    "Male"; [Contract] is 0, 1, 2; a Yes/No field is 1 for "Yes" and 0 for
    "No", and NaN for a no-service sentinel; a service field is 1 for
    "Yes" and 0 for "No" and for its own sentinel, and only for these. *)
Theorem encoding_table (r : RawAttributeRecord) (t m tc sc : num)
        (t' m' tc' : float64) :
  numeric_fields parse_number r t m tc sc ->
  scaled scaler_transform t m tc t' m' tc' ->
  exists out,
    preprocess_input parse_number py_str scaler_transform (input_df r) = Ok out
    /\ (gender r = VStr "Female" -> lookup "gender" out = int_cell 0)
    /\ (gender r = VStr "Male" -> lookup "gender" out = int_cell 1)
    /\ (Contract r = VStr "Month-to-month" ->
        lookup "Contract" out = int_cell 0)
    /\ (Contract r = VStr "One year" -> lookup "Contract" out = int_cell 1)
    /\ (Contract r = VStr "Two year" -> lookup "Contract" out = int_cell 2)
    /\ (forall label field, In (label, field) yes_no_fields ->
          (lookup label out = int_cell 1 <-> field r = VStr "Yes")
          /\ (lookup label out = int_cell 0 <-> field r = VStr "No")
          /\ (field r = VStr "No internet service" ->
              lookup label out = Some (VNum NaN))
          /\ (field r = VStr "No phone service" ->
              lookup label out = Some (VNum NaN)))
    /\ (forall label field sentinel,
          In (label, field, sentinel) service_fields ->
          (lookup label out = int_cell 1 <-> field r = VStr "Yes")
          /\ (lookup label out = int_cell 0
              <-> field r = VStr "No" \/ field r = VStr sentinel)).
Proof.
  intros Hn Hs. exists (feature_vector r t m tc sc t' m' tc').
  split; [apply preprocess_input_record; assumption |].
  do 5 (split; [intros E;
                cbv [lookup feature_vector String.eqb Ascii.eqb Bool.eqb];
                rewrite E; reflexivity |]).
  split.
  - intros label field Hin. simpl in Hin.
    repeat (destruct Hin as [Hin | Hin];
            [inversion Hin; subst label field; clear Hin |]);
      [.. | contradiction];
      cbv [lookup feature_vector String.eqb Ascii.eqb Bool.eqb];
      match goal with
      | |- context [enc_yes_no ?v] =>
          destruct (enc_yes_no_cases v) as [[E ->] | [[E ->] | [E ->]]]
      end;
      try rewrite E in *;
      (repeat split; intros H; try reflexivity; try discriminate H;
       try (rewrite H in E; discriminate E)).
  - intros label field sentinel Hin. simpl in Hin.
    repeat (destruct Hin as [Hin | Hin];
            [inversion Hin; subst label field sentinel; clear Hin |]);
      [.. | contradiction];
      cbv [lookup feature_vector String.eqb Ascii.eqb Bool.eqb];
      match goal with
      | |- context [enc_service ?s ?v] =>
          destruct (enc_service_cases s v)
            as [[E ->] | [[[E | E] ->] | [E ->]]]
      end;
      try rewrite E in *;
      (repeat split; intros H; try reflexivity; try discriminate H;
       try (left; reflexivity); try (right; reflexivity);
       try (destruct H as [H | H]; discriminate H);
       try (destruct H as [H | H]; rewrite H in E; discriminate E);
       try (rewrite H in E; discriminate E)).
Qed.

(** X7.  Every flag of the returned row is 0 or 1, never NaN, whatever the
    cells of the record are. *)
Theorem flags_are_binary (r : RawAttributeRecord) (t m tc sc : num)
        (t' m' tc' : float64) :
  numeric_fields parse_number r t m tc sc ->
  scaled scaler_transform t m tc t' m' tc' ->
  exists out,
    preprocess_input parse_number py_str scaler_transform (input_df r) = Ok out
    /\ forall c, In c flag_columns ->
         lookup c out = int_cell 0 \/ lookup c out = int_cell 1.
Proof.
  intros Hn Hs. exists (feature_vector r t m tc sc t' m' tc').
  split; [apply preprocess_input_record; assumption |].
  intros c Hc. simpl in Hc.
  repeat (destruct Hc as [<- | Hc];
          [cbv [lookup feature_vector String.eqb Ascii.eqb Bool.eqb];
           match goal with
           | |- context [Np.of_bool ?b] => destruct b; auto
           | |- _ => auto
           end |]).
  contradiction.
Qed.

Lemma enc_yes_no_zero (v : pyval) :
  Np.eqb (enc_yes_no v) (NInt 0) = true <-> v = VStr "No".
Proof.
  destruct (enc_yes_no_cases v) as [[E ->] | [[E ->] | [E ->]]]; subst;
    split; intros H; try reflexivity; try discriminate H.
  rewrite H in E. discriminate E.
Qed.

Lemma enc_service_zero (sentinel : string) (v : pyval) :
  Np.eqb (enc_service sentinel v) (NInt 0) = true
  <-> v = VStr "No" \/ v = VStr sentinel.
Proof.
  destruct (enc_service_cases sentinel v)
    as [[E X] | [[E X] | [E X]]]; rewrite X; split; intros H;
    try reflexivity; try discriminate H; try assumption.
  - subst v. destruct H as [H | H]; inversion H; subst sentinel.
    discriminate X.
  - destruct H as [H | H]; rewrite H in E; simpl in E;
      rewrite ?String.eqb_refl, ?orb_true_r in E; discriminate E.
Qed.

(** X8.  The family and spender flags of the returned row.
    [SeniorNoSupport] is 1 exactly for a senior citizen whose tech support
    is "No" or "No internet service"; [SingleNoFamily] is 1 exactly when
    [Partner] and [Dependents] are both "No"; [NewHighSpender] is 1
    exactly when [IsNewCustomer] and [IsHighSpender] both are. *)
Theorem family_and_spender_flags (r : RawAttributeRecord) (t m tc sc : num)
        (t' m' tc' : float64) :
  numeric_fields parse_number r t m tc sc ->
  scaled scaler_transform t m tc t' m' tc' ->
  exists out,
    preprocess_input parse_number py_str scaler_transform (input_df r) = Ok out
    /\ (lookup "SeniorNoSupport" out = int_cell 1
        <-> Np.eqb sc (NInt 1) = true
            /\ (TechSupport r = VStr "No"
                \/ TechSupport r = VStr "No internet service"))
    /\ (lookup "SingleNoFamily" out = int_cell 1
        <-> Partner r = VStr "No" /\ Dependents r = VStr "No")
    /\ (lookup "NewHighSpender" out = int_cell 1
        <-> lookup "IsNewCustomer" out = int_cell 1
            /\ lookup "IsHighSpender" out = int_cell 1).
Proof.
  intros Hn Hs. exists (feature_vector r t m tc sc t' m' tc').
  split; [apply preprocess_input_record; assumption |].
  cbv [lookup feature_vector String.eqb Ascii.eqb Bool.eqb].
  rewrite !of_bool_cell_one, !andb_true_iff.
  rewrite enc_service_zero, !enc_yes_no_zero.
  repeat split; tauto.
Qed.

Lemma total_services_summands (r : RawAttributeRecord) :
  In NaN [ enc_yes_no (PhoneService r);
           enc_service "No internet service" (OnlineSecurity r);
           enc_service "No internet service" (OnlineBackup r);
           enc_service "No internet service" (DeviceProtection r);
           enc_service "No internet service" (TechSupport r);
           enc_service "No internet service" (StreamingTV r);
           enc_service "No internet service" (StreamingMovies r) ] ->
  total_services r = NaN.
Proof.
  unfold total_services. cbn [In]. intros H.
  repeat (destruct H as [H | H];
          [rewrite H; rewrite ?Np_add_nan_l, ?Np_add_nan_r; reflexivity |]).
  contradiction.
Qed.

(** X9.  The service count of the returned row.  With valid categories it is
    an integer from 1 to 8, and [HasMinimalServices] is 1 exactly when it
    is at most 2.  When [PhoneService] or one of the six internet add-on
    fields is outside its enumeration the count and [ServiceDensity] are
    NaN and [HasMinimalServices] is 0. *)
Theorem total_services_range (r : RawAttributeRecord) (t m tc sc : num)
        (t' m' tc' : float64) :
  numeric_fields parse_number r t m tc sc ->
  scaled scaler_transform t m tc t' m' tc' ->
  exists out,
    preprocess_input parse_number py_str scaler_transform (input_df r) = Ok out
    /\ (categorical_valid r = true ->
        exists n, lookup "TotalServices" out = int_cell n
                  /\ 1 <= n <= 8
                  /\ (lookup "HasMinimalServices" out = int_cell 1
                      <-> n <= 2))
    /\ (forall label field enum,
          In (label, field, enum) encoded_fields ->
          In label ["PhoneService"; "OnlineSecurity"; "OnlineBackup";
                    "DeviceProtection"; "TechSupport"; "StreamingTV";
                    "StreamingMovies"] ->
          in_enum enum (field r) = false ->
          lookup "TotalServices" out = Some (VNum NaN)
          /\ lookup "ServiceDensity" out = Some (VNum NaN)
          /\ lookup "HasMinimalServices" out = int_cell 0).
Proof.
  intros Hn Hs. exists (feature_vector r t m tc sc t' m' tc').
  split; [apply preprocess_input_record; assumption |].
  cbv [lookup feature_vector String.eqb Ascii.eqb Bool.eqb].
  split.
  - intros V. rewrite (total_services_spec r V).
    set (n := spec_total_services r
              + (if pyval_eqb (InternetService r) (VStr "No")
                 then 1 else 0)).
    assert (1 <= n <= 8) as B.
    { subst n. unfold spec_total_services, spec_service_slots.
      destruct (pyval_eqb (InternetService r) (VStr "No"));
        repeat match goal with
          | |- context [is_one ?x] => destruct (is_one x)
          end; simpl; lia. }
    exists n. split; [reflexivity |]. split; [exact B |].
    rewrite of_bool_cell_one. simpl. apply Z.leb_le.
  - intros label field enum Hin Hl E.
    assert (total_services r = NaN) as ->.
    { apply total_services_summands.
      simpl in Hin.
      repeat (destruct Hin as [Hin | Hin];
              [inversion Hin; subst label field enum; clear Hin |]);
        [.. | contradiction];
        simpl in Hl;
        try (exfalso;
             repeat (destruct Hl as [Hl | Hl]; [discriminate Hl |]);
             exact Hl);
        match goal with
        | E : in_enum ["Yes"; "No"] ?v = false |- _ =>
            destruct (enc_yes_no_cases v) as [[X _] | [[X _] | [_ X]]];
            [rewrite X in E; discriminate E
            | rewrite X in E; discriminate E
            | rewrite X; cbn [In]; tauto]
        | E : in_enum ["Yes"; "No"; ?s] ?v = false |- _ =>
            destruct (enc_service_cases s v)
              as [[X _] | [[[X | X] _] | [_ X]]];
            [rewrite X in E; discriminate E
            | rewrite X in E; discriminate E
            | rewrite X in E; discriminate E
            | rewrite X; cbn [In]; tauto]
        end. }
    repeat split; reflexivity.
Qed.

(** X10.  No division guard: for tenure -1 the transform returns a row all the
    same, in which [ChargePerTenureMonth] is an infinity of the sign of
    the total charges, NaN for zero total charges. *)
Theorem ratio_at_minus_one (r : RawAttributeRecord) (t m tc sc : num)
        (t' m' tc' : float64) (x : Q) :
  numeric_fields parse_number r t m tc sc ->
  scaled scaler_transform t m tc t' m' tc' ->
  (Np.value t = Some (-1)%Q) ->
  Np.value tc = Some x ->
  exists out,
    preprocess_input parse_number py_str scaler_transform (input_df r) = Ok out
    /\ ((0 < x)%Q ->
        lookup "ChargePerTenureMonth" out = Some (VNum (NFloat FPosInf)))
    /\ ((x < 0)%Q ->
        lookup "ChargePerTenureMonth" out = Some (VNum (NFloat FNegInf)))
    /\ ((x == 0)%Q ->
        lookup "ChargePerTenureMonth" out = Some (VNum NaN)).
Proof.
  intros Hn Hs Ht Hx. exists (feature_vector r t m tc sc t' m' tc').
  split; [apply preprocess_input_record; assumption |].
  cbv [lookup feature_vector String.eqb Ascii.eqb Bool.eqb].
  assert (Np.to_float (Np.add t (NInt 1)) = FNum 0) as D.
  { destruct t as [z | [q | | |]]; simpl in Ht; inversion Ht; subst;
      reflexivity. }
  assert (Np.to_float tc = FNum x) as N.
  { destruct tc as [z | [q | | |]]; simpl in Hx; inversion Hx; reflexivity. }
  unfold Np.truediv. rewrite D, N. simpl.
  destruct (Qeq_bool x 0) eqn:E.
  - apply Qeq_bool_iff in E. repeat split; intros; try reflexivity; lra.
  - apply Qeq_bool_neq in E.
    destruct (Qle_bool 0 x) eqn:L.
    + apply Qle_bool_iff in L. repeat split; intros; try reflexivity;
        exfalso; first [lra | apply E; assumption].
    + assert (~ (0 <= x)%Q) by (rewrite <- Qle_bool_iff; congruence).
      repeat split; intros; try reflexivity; exfalso;
        first [lra | apply E; assumption].
Qed.

End Record_facts.

(* ================================================================= *)
(** ** Indicator columns supplied by the caller *)

Ltac frame_ops_keep :=
  cbv beta iota zeta delta
    [bind select getitem lookup setitem assign drop filter existsb negb
     fst snd flat_map map app String.eqb Ascii.eqb Bool.eqb get_num
     indicator_set has_col columns cell_eq fold_left map_col
     replace_col orb hd input_df_with input_df].

Section Supplied.

Variable parse_number : string -> option num.
Variable py_str : num -> string.
Variable scaler_transform :
  float64 -> float64 -> float64 -> result (float64 * float64 * float64).

(** X11.  When the caller supplies the indicator columns itself, they pass
    through the one-hot step and the features that read them are the
    intended conjunctions. *)
Theorem supplied_indicators_honoured (r : RawAttributeRecord)
        (t m tc sc : num) (t' m' tc' : float64)
        (fiber no_internet bank card echeck mailed : pyval) :
  numeric_fields parse_number r t m tc sc ->
  scaled scaler_transform t m tc t' m' tc' ->
  exists out,
    preprocess_input parse_number py_str scaler_transform
      (input_df_with r
         [ ("InternetService_Fiber optic", fiber);
           ("InternetService_No", no_internet);
           ("PaymentMethod_Bank transfer (automatic)", bank);
           ("PaymentMethod_Credit card (automatic)", card);
           ("PaymentMethod_Electronic check", echeck);
           ("PaymentMethod_Mailed check", mailed) ]) = Ok out
    /\ columns out = expected_columns
    /\ lookup "InternetService_Fiber optic" out = Some fiber
    /\ lookup "InternetService_No" out = Some no_internet
    /\ lookup "PaymentMethod_Credit card (automatic)" out = Some card
    /\ lookup "PaymentMethod_Electronic check" out = Some echeck
    /\ lookup "PaymentMethod_Mailed check" out = Some mailed
    /\ lookup "HighRiskProfile" out
       = Some (VNum (Np.of_bool
                       (Np.eqb (enc_contract (Contract r)) (NInt 0)
                        && py_eq fiber 1 && py_eq echeck 1)))
    /\ lookup "PaperlessElectronicCheck" out
       = Some (VNum (Np.of_bool
                       (Np.eqb (enc_yes_no (PaperlessBilling r)) (NInt 1)
                        && py_eq echeck 1)))
    /\ lookup "HasAutoPay" out
       = Some (VNum (Np.of_bool (py_eq bank 1 || py_eq card 1)))
    /\ lookup "FiberNoAddons" out
       = Some (VNum (Np.of_bool
                       (py_eq fiber 1
                        && Np.eqb (enc_service "No internet service"
                                     (OnlineSecurity r)) (NInt 0)
                        && Np.eqb (enc_service "No internet service"
                                     (TechSupport r)) (NInt 0))))
    /\ lookup "TotalServices" out
       = Some (VNum (service_sum r
                       (1 - (if py_eq no_internet 1 then 1 else 0)))).
Proof.
  intros (Ht & Hm & Htc & Hsc) Hs. red in Hs.
  eexists. split.
  - unfold preprocess_input, intermediate, engineer, encode.
    unfold binary_encoding; frame_ops_keep.
    unfold handle_no_service; frame_ops_keep.
    unfold ordinal_encoding; frame_ops_keep.
    unfold one_hot_encoding, get_dummies; frame_ops_keep.
    rewrite !get_dummies_1d_one_row; frame_ops_keep.
    unfold ensure_numeric_types, to_numeric_col; frame_ops_keep.
    rewrite Ht; frame_ops_keep. rewrite Hm; frame_ops_keep.
    rewrite Htc; frame_ops_keep. rewrite Hsc; frame_ops_keep.
    unfold derived_features; frame_ops_keep.
    rewrite !and_then_ok; frame_ops_keep.
    unfold scaling; frame_ops_keep.
    rewrite Hs; frame_ops_keep.
    unfold align_columns, add_missing_columns, expected_columns;
      frame_ops_keep.
    reflexivity.
  - cbv [lookup columns map fst String.eqb Ascii.eqb Bool.eqb].
    unfold service_sum, enc_service, enc_yes_no, enc_contract.
    destruct (py_eq fiber 1), (py_eq no_internet 1), (py_eq bank 1),
      (py_eq card 1), (py_eq echeck 1);
      rewrite ?andb_true_r, ?andb_false_r;
      repeat split; reflexivity.
Qed.

End Supplied.

(* ================================================================= *)
(** ** Alignment of an aligned frame *)

Lemma lookup_not_in (c : string) (df : frame) :
  ~ In c (columns df) -> lookup c df = None.
Proof.
  intros N. destruct (lookup c df) as [v |] eqn:L; [| reflexivity].
  exfalso. apply N. rewrite <- existsb_eqb_In.
  apply (proj2 (has_col_lookup c df)). congruence.
Qed.

Lemma frame_ext (a b : frame) :
  columns a = columns b -> NoDup (columns a) ->
  (forall c, lookup c a = lookup c b) -> a = b.
Proof.
  revert b. induction a as [| [k v] a IH]; intros [| [k' v'] b] C N L;
    try discriminate C; [reflexivity |].
  simpl in C. inversion C as [[Ck Ct]]. subst k'.
  inversion N as [| ? ? Nk Nt]; subst.
  pose proof (L k) as Lk. simpl in Lk. rewrite String.eqb_refl in Lk.
  inversion Lk; subst v'.
  f_equal. apply IH; [exact Ct | exact Nt |].
  intros c. destruct (String.eqb k c) eqn:E.
  - apply String.eqb_eq in E. subst c.
    rewrite !lookup_not_in; [reflexivity | rewrite <- Ct; exact Nk | exact Nk].
  - pose proof (L c) as Lc. simpl in Lc. rewrite E in Lc. exact Lc.
Qed.

(** X12.  A frame that already has exactly the expected columns, in order, is
    returned unchanged by the alignment step; so aligning twice is
    aligning once. *)
Theorem align_columns_fixpoint :
  (forall df, columns df = expected_columns -> align_columns df = Ok df)
  /\ (forall df out, align_columns df = Ok out -> align_columns out = Ok out).
Proof.
  assert (forall df, columns df = expected_columns ->
                     align_columns df = Ok df) as F.
  { intros df C.
    destruct (align_columns_spec df) as [out [A [Co [V N]]]].
    rewrite A. f_equal. apply frame_ext.
    - congruence.
    - rewrite Co. apply expected_columns_NoDup.
    - intros c. destruct (in_dec string_dec c expected_columns) as [I | I].
      + rewrite (V c I). destruct (lookup c df) eqn:L; [reflexivity |].
        exfalso. rewrite <- C in I.
        apply existsb_eqb_In, has_col_lookup in I. congruence.
      + rewrite (N c I). symmetry. apply lookup_not_in. rewrite C. exact I. }
  split; [exact F |].
  intros df out A. apply F.
  destruct (align_columns_spec df) as [out' [A' [Co _]]].
  rewrite A in A'. inversion A'. subst out'. exact Co.
Qed.

(* ================================================================= *)
(** ** The form handler *)

Lemma form_numeric_fields (parse_number : string -> option num) (f : form) :
  numeric_fields parse_number (input_dict f)
    (NInt (form_tenure f)) (NFloat (FNum (monthly_charges f)))
    (NFloat (FNum (Qred (inject_Z (form_tenure f) * monthly_charges f))))
    (NInt 0).
Proof. repeat split; reflexivity. Qed.

Section Handler.

Variable parse_number : string -> option num.
Variable py_str : num -> string.
Variable scaler_transform :
  float64 -> float64 -> float64 -> result (float64 * float64 * float64).

(** X13.  The row of a form submission.  The fields the form does not ask for
    give constant columns; the service count is 2 plus the add-ons that
    are asked for with internet, so [HasMinimalServices] is 1 exactly
    without add-on. *)
Theorem form_row (f : form) (t' m' tc' : float64) :
  scaled scaler_transform
    (NInt (form_tenure f)) (NFloat (FNum (monthly_charges f)))
    (NFloat (FNum (Qred (inject_Z (form_tenure f) * monthly_charges f))))
    t' m' tc' ->
  exists out,
    preprocess_input parse_number py_str scaler_transform
      (input_df (input_dict f)) = Ok out
    /\ (forall c, In c ["gender"; "SeniorCitizen"; "Partner"; "Dependents";
                        "MultipleLines"; "OnlineBackup"; "DeviceProtection";
                        "StreamingTV"; "StreamingMovies"; "SeniorNoSupport"] ->
          lookup c out = int_cell 0)
    /\ lookup "PhoneService" out = int_cell 1
    /\ lookup "SingleNoFamily" out = int_cell 1
    /\ (selectable f = true ->
        lookup "OnlineSecurity" out
        = int_cell (Z_of_bool (effective_addon f (online_security f)))
        /\ lookup "TechSupport" out
           = int_cell (Z_of_bool (effective_addon f (tech_support f)))
        /\ lookup "TotalServices" out
           = int_cell (2 + Z_of_bool (effective_addon f (online_security f))
                       + Z_of_bool (effective_addon f (tech_support f)))
        /\ (lookup "HasMinimalServices" out = int_cell 1
            <-> effective_addon f (online_security f) = false
                /\ effective_addon f (tech_support f) = false)).
Proof.
  intros Hs.
  eexists. split.
  { exact (preprocess_input_record parse_number py_str scaler_transform
             (input_dict f) _ _ _ _ t' m' tc'
             (form_numeric_fields parse_number f) Hs). }
  split.
  { intros c Hc. simpl in Hc.
    repeat (destruct Hc as [<- | Hc]; [reflexivity |]). contradiction. }
  split; [reflexivity |]. split; [reflexivity |].
  cbv [lookup feature_vector String.eqb Ascii.eqb Bool.eqb].
  unfold selectable, in_enum, effective_addon, total_services.
  cbn -[String.eqb].
  rewrite !orb_false_r, andb_true_iff, !orb_true_iff, !String.eqb_eq.
  intros [[S | S] [T | T]]; rewrite <- S, <- T;
    destruct (String.eqb (internet_service f) "No");
    vm_compute;
    (repeat split; intros; try reflexivity; try discriminate;
     try (intuition discriminate)).
Qed.

(** X14.  On a form submission the total charges are tenure times monthly
    charges, so for a tenure from 0 up the charge per tenure month of the
    row is (tenure * monthly charges) / (tenure + 1), next to the
    charge-tenure ratio monthly charges / (tenure + 1).  At tenure 0 the
    first is 0 whatever the charges are, and the second is the monthly
    charges. *)
Theorem form_ratios (f : form) (t' m' tc' : float64) :
  scaled scaler_transform
    (NInt (form_tenure f)) (NFloat (FNum (monthly_charges f)))
    (NFloat (FNum (Qred (inject_Z (form_tenure f) * monthly_charges f))))
    t' m' tc' ->
  0 <= form_tenure f -> form_tenure f < Int64.max_signed ->
  exists out p q,
    preprocess_input parse_number py_str scaler_transform
      (input_df (input_dict f)) = Ok out
    /\ lookup "ChargePerTenureMonth" out = Some (VNum (NFloat (FNum p)))
    /\ lookup "ChargeTenureRatio" out = Some (VNum (NFloat (FNum q)))
    /\ (p == inject_Z (form_tenure f) * monthly_charges f
             / (inject_Z (form_tenure f) + 1))%Q
    /\ (q == monthly_charges f / (inject_Z (form_tenure f) + 1))%Q
    /\ (form_tenure f = 0 -> (p == 0)%Q /\ (q == monthly_charges f)%Q).
Proof.
  intros Hs L U.
  assert (0 <= inject_Z (form_tenure f))%Q as LQ
    by (change 0%Q with (inject_Z 0); rewrite <- Zle_Qle; exact L).
  assert (inject_Z (form_tenure f) < inject_Z Int64.max_signed)%Q as UQ
    by (rewrite <- Zlt_Qlt; exact U).
  destruct (Np_add_one_value (NInt (form_tenure f)) _ eq_refl LQ UQ)
    as [d [Hd [Ed Pd]]].
  destruct (Np_truediv_value
              (NFloat (FNum (Qred (inject_Z (form_tenure f)
                                   * monthly_charges f))))
              (Np.add (NInt (form_tenure f)) (NInt 1)) _ d eq_refl Hd Pd)
    as [p [Hp Ep]].
  destruct (Np_truediv_value (NFloat (FNum (monthly_charges f)))
              (Np.add (NInt (form_tenure f)) (NInt 1)) _ d eq_refl Hd Pd)
    as [q [Hq Eq]].
  eexists. exists p, q. split.
  { exact (preprocess_input_record parse_number py_str scaler_transform
             (input_dict f) _ _ _ _ t' m' tc'
             (form_numeric_fields parse_number f) Hs). }
  cbv [lookup feature_vector String.eqb Ascii.eqb Bool.eqb].
  rewrite Hp, Hq. split; [reflexivity |]. split; [reflexivity |].
  rewrite Ep, Eq, Qred_correct, Ed.
  split; [reflexivity |]. split; [reflexivity |].
  intros Z0. rewrite Z0. change (inject_Z 0) with 0%Q.
  split; field.
Qed.

(** X15.  The recommended actions are listed only for a probability that
    reaches the threshold; below it there is no list.  What is listed
    follows the form values, not the row: the pricing review goes with
    [IsHighSpender], the account manager needs a tenure below 12 although
    [IsNewCustomer] is also 1 at 12, and free tech support is recommended
    to fibre customers without support although [FiberNoAddons] is 0 in
    the row. *)
Theorem recommendations_and_row (f : form) (p threshold t' m' tc' : float64) :
  scaled scaler_transform
    (NInt (form_tenure f)) (NFloat (FNum (monthly_charges f)))
    (NFloat (FNum (Qred (inject_Z (form_tenure f) * monthly_charges f))))
    t' m' tc' ->
  exists out,
    preprocess_input parse_number py_str scaler_transform
      (input_df (input_dict f)) = Ok out
    /\ (Float.geb p threshold = false ->
        recommendations (will_churn p threshold) f = None)
    /\ (Float.geb p threshold = true ->
        exists recs,
          recommendations (will_churn p threshold) f = Some recs
          /\ (In ReviewPricing recs
              <-> lookup "IsHighSpender" out = int_cell 1)
          /\ (In AccountManager recs <-> form_tenure f < 12)
          /\ (In FreeTechSupport recs
              <-> internet_service f = "Fiber optic"
                  /\ tech_support f = "No")
          /\ (In IncentivizeAutoPay recs
              <-> payment_method f = "Electronic check")
          /\ (In OfferContract recs <-> contract f = "Month-to-month")
          /\ (In OfferSecurity recs <-> online_security f = "No"))
    /\ (lookup "IsNewCustomer" out = int_cell 1 <-> form_tenure f <= 12)
    /\ lookup "FiberNoAddons" out = int_cell 0
    /\ lookup "PaperlessElectronicCheck" out = int_cell 0.
Proof.
  intros Hs. eexists. split.
  { exact (preprocess_input_record parse_number py_str scaler_transform
             (input_dict f) _ _ _ _ t' m' tc'
             (form_numeric_fields parse_number f) Hs). }
  cbv [lookup feature_vector String.eqb Ascii.eqb Bool.eqb].
  unfold recommendations, will_churn.
  change (Np.gtb (NFloat (FNum (monthly_charges f))) (NInt 70))
    with (Float.gtb (FNum (monthly_charges f)) (Float.of_Z 70)).
  change (Np.leb (NInt (form_tenure f)) (NInt 12))
    with (form_tenure f <=? 12).
  split; [intros ->; reflexivity |].
  split;
    [| rewrite of_bool_cell_one, Z.leb_le, ?andb_false_r;
       split; [reflexivity | split; reflexivity]].
  intros ->. cbn [truthy Z.eqb negb].
  eexists. split; [reflexivity |].
  rewrite of_bool_cell_one.
  rewrite <- (String.eqb_eq (internet_service f)),
    <- (String.eqb_eq (tech_support f)),
    <- (String.eqb_eq (payment_method f)),
    <- (String.eqb_eq (contract f)),
    <- (String.eqb_eq (online_security f)), <- Z.ltb_lt.
  destruct (String.eqb (contract f) "Month-to-month"),
    (String.eqb (payment_method f) "Electronic check"),
    (String.eqb (internet_service f) "Fiber optic"),
    (String.eqb (tech_support f) "No"),
    (String.eqb (online_security f) "No"),
    (Float.gtb (FNum (monthly_charges f)) (Float.of_Z 70)),
    (form_tenure f <? 12);
    cbn [andb app In];
    (repeat split; intros; try reflexivity; try discriminate;
     try (intuition discriminate)).
Qed.

End Handler.

(** X16.  The "Risk Level" card follows the decision and the banner follows the
    fixed cuts, the float literals 0.4 and 0.7: they cannot contradict
    each other when the threshold lies between the two literals, and they
    do for the probabilities between the threshold and the nearer cut
    otherwise.  The expected value shown is 0 exactly when the card says
    HIGH. *)
Theorem risk_card_and_banner (q th : Q) :
  let p := FNum q in
  let card := risk_level (will_churn p (FNum th)) in
  (card = "HIGH" <-> (th <= q)%Q)
  /\ (card = "HIGH" \/ card = "LOW")
  /\ (expected_ltv (will_churn p (FNum th)) = 0 <-> card = "HIGH")
  /\ ((float_0_4 <= th)%Q -> (th <= float_0_7)%Q ->
      (card = "HIGH" -> risk_assessment p <> risk_low)
      /\ (card = "LOW" -> risk_assessment p <> risk_high))
  /\ ((th <= q)%Q -> (q < float_0_4)%Q ->
      card = "HIGH" /\ risk_assessment p = risk_low)
  /\ ((float_0_7 <= q)%Q -> (q < th)%Q ->
      card = "LOW" /\ risk_assessment p = risk_high).
Proof.
  intros p card. subst p card.
  unfold risk_level, expected_ltv, will_churn, risk_assessment, truthy.
  simpl. unfold float_0_4, float_0_7.
  destruct (Qle_bool th q) eqn:T;
    destruct (Qle_bool (3152519739159347 # 4503599627370496) q) eqn:H7;
    destruct (Qle_bool (3602879701896397 # 9007199254740992) q) eqn:H4;
    try (apply Qle_bool_iff in T); try (apply Qle_bool_iff in H7);
    try (apply Qle_bool_iff in H4);
    try (assert (~ (th <= q)%Q) as NT
          by (rewrite <- Qle_bool_iff; congruence));
    try (assert (~ (3152519739159347 # 4503599627370496 <= q)%Q) as N7
          by (rewrite <- Qle_bool_iff; congruence));
    try (assert (~ (3602879701896397 # 9007199254740992 <= q)%Q) as N4
          by (rewrite <- Qle_bool_iff; congruence));
    simpl;
    repeat split; intros; auto; try discriminate; try lra;
    try (exfalso; lra).
Qed.

(* ================================================================= *)
(** ** The two display columns *)

Lemma fill_columns_from {A : Type} (l : list A) (i : nat) (a1 a2 : list A) :
  fold_left
    (fun (cols : list A * list A) (ir : nat * A) =>
       if Nat.eqb (fst ir mod 2) 0
       then (fst cols ++ [snd ir], snd cols)%list
       else (fst cols, snd cols ++ [snd ir])%list)
    (combine (seq i (List.length l)) l) (a1, a2)
  = if Nat.even i
    then ((a1 ++ fst (alternate l))%list, (a2 ++ snd (alternate l))%list)
    else ((a1 ++ snd (alternate l))%list, (a2 ++ fst (alternate l))%list).
Proof.
  revert i a1 a2. induction l as [| x l IH]; intros i a1 a2.
  - simpl. rewrite !app_nil_r. destruct (Nat.even i); reflexivity.
  - cbn [List.length seq combine fold_left fst snd alternate].
    destruct (alternate l) as [a b] eqn:E.
    assert (Nat.eqb (i mod 2) 0 = Nat.even i) as ->.
    { rewrite <- Nat.bit0_mod, Nat.bit0_odd, <- Nat.negb_even.
      destruct (Nat.even i); reflexivity. }
    destruct (Nat.even i) eqn:Ev; cbn [fst snd];
      rewrite IH, Nat.even_succ, <- Nat.negb_even, Ev; cbn [negb fst snd];
      rewrite <- !app_assoc; reflexivity.
Qed.

Lemma interleave_alternate {A : Type} (l : list A) :
  interleave (fst (alternate l)) (snd (alternate l)) = l
  /\ forall x, interleave (fst (alternate (x :: l))) (snd (alternate (x :: l)))
               = x :: l.
Proof.
  induction l as [| y l [IH1 IH2]].
  - split; reflexivity.
  - split; [apply IH2 |].
    intros x. cbn [alternate].
    destruct (alternate l) as [a b]. cbn [fst snd interleave] in *.
    rewrite IH1. reflexivity.
Qed.

Lemma alternate_length {A : Type} (l : list A) :
  List.length (fst (alternate l)) = Nat.div2 (S (List.length l))
  /\ List.length (snd (alternate l)) = Nat.div2 (List.length l).
Proof.
  induction l as [| x l [IH1 IH2]]; [split; reflexivity |].
  cbn [alternate]. destruct (alternate l) as [a b].
  cbn [fst snd List.length] in *. rewrite IH1, IH2. split; reflexivity.
Qed.

(** X18.  The display loop puts the recommendations of even rank in the first
    column and those of odd rank in the second: read row by row the two
    columns give the list back, and the first column has as many entries
    as the second, or one more. *)
Theorem fill_columns_round_trip {A : Type} (recs : list A) :
  fill_columns recs = alternate recs
  /\ interleave (fst (fill_columns recs)) (snd (fill_columns recs)) = recs
  /\ List.length (fst (fill_columns recs))
     = Nat.div2 (S (List.length recs))
  /\ List.length (snd (fill_columns recs)) = Nat.div2 (List.length recs).
Proof.
  assert (fill_columns recs = alternate recs) as E.
  { unfold fill_columns, enumerate.
    rewrite (fill_columns_from recs 0 [] []). simpl.
    destruct (alternate recs); reflexivity. }
  rewrite E. split; [reflexivity |].
  split; [apply interleave_alternate |]. apply alternate_length.
Qed.

(* ================================================================= *)
(** ** The confidence figure *)



(* ================================================================= *)
(** ** The form path never rejects *)

(** X19.  Whatever is typed in the form, preprocessing raises only if the scaler
    does: the numeric cells are numbers by construction and no category
    is checked. *)
Theorem form_preprocessing_total (parse_number : string -> option num)
        (py_str : num -> string)
        (scaler_transform :
           float64 -> float64 -> float64
           -> result (float64 * float64 * float64))
        (f : form) :
  is_ok (preprocess_input parse_number py_str scaler_transform
           (input_df (input_dict f)))
  = is_ok (scaler_transform
             (Float.of_Z (form_tenure f)) (FNum (monthly_charges f))
             (FNum (Qred (inject_Z (form_tenure f) * monthly_charges f)))).
Proof.
  rewrite (preprocess_input_numeric parse_number py_str scaler_transform
             (input_dict f) _ _ _ _ (form_numeric_fields parse_number f)).
  cbn [Np.to_float].
  destruct (scaler_transform _ _ _) as [[[a b] c] | e]; reflexivity.
Qed.

(* ================================================================= *)
(** ** The further theorems at concrete inputs *)

Lemma raw_columns_required_witness :
  exists out,
    preprocess_input no_number no_label example_scaler
      (input_df (input_dict example_form)) = Ok out
    /\ forall c, In c raw_columns ->
                 In c (columns (input_df (input_dict example_form))).
Proof.
  destruct (preprocess_input no_number no_label example_scaler
              (input_df (input_dict example_form))) as [out | e] eqn:P;
    [| vm_compute in P; discriminate P].
  exists out. split; [reflexivity |].
  exact (raw_columns_required no_number no_label example_scaler _ out P).
Defined.

Lemma encode_frame_witness :
  exists df',
    encode no_label (input_df (input_dict example_form)) = Ok df'
    /\ columns df'
       = filter (fun c => negb (existsb (String.eqb c)
                                  ["InternetService"; "PaymentMethod"]))
                (columns (input_df (input_dict example_form))).
Proof.
  destruct (encode no_label (input_df (input_dict example_form)))
    as [df' | e] eqn:E; [| vm_compute in E; discriminate E].
  exists df'. split; [reflexivity |].
  exact (proj1 (proj2 (encode_frame no_label _ df' E))).
Defined.

Lemma derived_features_frame_witness :
  exists df',
    derived_features (encoded_frame (input_dict example_form)) = Ok df'
    /\ lookup "Contract" df'
       = lookup "Contract" (encoded_frame (input_dict example_form))
    /\ In "FiberNoAddons" (columns df').
Proof.
  destruct (derived_features (encoded_frame (input_dict example_form)))
    as [df' | e] eqn:E; [| vm_compute in E; discriminate E].
  exists df'. split; [reflexivity |].
  destruct (derived_features_frame _ df' E) as (K & D & _).
  split.
  - apply K. simpl. intros H.
    repeat (destruct H as [H | H]; [discriminate H |]). exact H.
  - apply D. simpl. tauto.
Defined.

Lemma encoding_table_witness :
  numeric_fields no_number (input_dict example_form)
                 (NInt 12) (NFloat (FNum 70)) (NFloat (FNum 840)) (NInt 0)
  /\ scaled example_scaler (NInt 12) (NFloat (FNum 70)) (NFloat (FNum 840))
            (FNum (-5 # 6)) (FNum (1 # 6)) (FNum (-720 # 1133))
  /\ exists out,
       preprocess_input no_number no_label example_scaler
         (input_df (input_dict example_form)) = Ok out
       /\ lookup "gender" out = int_cell 0
       /\ lookup "Contract" out = int_cell 1.
Proof.
  split; [exact example_numeric_fields |].
  split; [exact example_scaled |].
  destruct (encoding_table no_number no_label example_scaler
              (input_dict example_form) _ _ _ _ _ _ _
              example_numeric_fields example_scaled)
    as (out & P & G & _ & _ & C & _).
  exists out. split; [exact P |].
  split; [apply G | apply C]; reflexivity.
Defined.

Lemma flags_are_binary_witness :
  numeric_fields no_number out_of_enum_record
                 (NInt 12) (NFloat (FNum 70)) (NFloat (FNum 840)) (NInt 0)
  /\ scaled example_scaler (NInt 12) (NFloat (FNum 70)) (NFloat (FNum 840))
            (FNum (-5 # 6)) (FNum (1 # 6)) (FNum (-720 # 1133))
  /\ exists out,
       preprocess_input no_number no_label example_scaler
         (input_df out_of_enum_record) = Ok out
       /\ (lookup "HighRiskProfile" out = int_cell 0
           \/ lookup "HighRiskProfile" out = int_cell 1).
Proof.
  assert (numeric_fields no_number out_of_enum_record
            (NInt 12) (NFloat (FNum 70)) (NFloat (FNum 840)) (NInt 0)) as Hn
    by (repeat split; reflexivity).
  split; [exact Hn |]. split; [exact example_scaled |].
  destruct (flags_are_binary no_number no_label example_scaler
              out_of_enum_record _ _ _ _ _ _ _ Hn example_scaled)
    as (out & P & F).
  exists out. split; [exact P |]. apply F. simpl. tauto.
Defined.

Lemma family_and_spender_flags_witness :
  numeric_fields no_number (input_dict high_risk_form)
                 (NInt 3) (NFloat (FNum 95)) (NFloat (FNum 285)) (NInt 0)
  /\ scaled example_scaler (NInt 3) (NFloat (FNum 95)) (NFloat (FNum 285))
            (FNum (-29 # 24)) (FNum 1) (FNum (-1995 # 2266))
  /\ exists out,
       preprocess_input no_number no_label example_scaler
         (input_df (input_dict high_risk_form)) = Ok out
       /\ lookup "SingleNoFamily" out = int_cell 1.
Proof.
  assert (numeric_fields no_number (input_dict high_risk_form)
            (NInt 3) (NFloat (FNum 95)) (NFloat (FNum 285)) (NInt 0)) as Hn
    by (repeat split; reflexivity).
  assert (scaled example_scaler (NInt 3) (NFloat (FNum 95))
            (NFloat (FNum 285))
            (FNum (-29 # 24)) (FNum 1) (FNum (-1995 # 2266))) as Hs
    by reflexivity.
  split; [exact Hn |]. split; [exact Hs |].
  destruct (family_and_spender_flags no_number no_label example_scaler
              (input_dict high_risk_form) _ _ _ _ _ _ _ Hn Hs)
    as (out & P & _ & S & _).
  exists out. split; [exact P |]. apply S. split; reflexivity.
Defined.

Lemma total_services_range_witness :
  numeric_fields no_number (input_dict example_form)
                 (NInt 12) (NFloat (FNum 70)) (NFloat (FNum 840)) (NInt 0)
  /\ scaled example_scaler (NInt 12) (NFloat (FNum 70)) (NFloat (FNum 840))
            (FNum (-5 # 6)) (FNum (1 # 6)) (FNum (-720 # 1133))
  /\ categorical_valid (input_dict example_form) = true
  /\ exists out n,
       preprocess_input no_number no_label example_scaler
         (input_df (input_dict example_form)) = Ok out
       /\ lookup "TotalServices" out = int_cell n
       /\ 1 <= n <= 8.
Proof.
  split; [exact example_numeric_fields |].
  split; [exact example_scaled |]. split; [reflexivity |].
  destruct (total_services_range no_number no_label example_scaler
              (input_dict example_form) _ _ _ _ _ _ _
              example_numeric_fields example_scaled)
    as (out & P & V & _).
  destruct (V eq_refl) as (n & T & B & _).
  exists out, n. repeat split; try assumption; apply B.
Defined.

Lemma ratio_at_minus_one_witness :
  numeric_fields no_number (input_dict minus_one_form)
                 (NInt (-1)) (NFloat (FNum 70)) (NFloat (FNum (-70))) (NInt 0)
  /\ scaled example_scaler (NInt (-1)) (NFloat (FNum 70))
            (NFloat (FNum (-70)))
            (FNum (-11 # 8)) (FNum (1 # 6)) (FNum (-1175 # 1133))
  /\ exists out,
       preprocess_input no_number no_label example_scaler
         (input_df (input_dict minus_one_form)) = Ok out
       /\ lookup "ChargePerTenureMonth" out = Some (VNum (NFloat FNegInf)).
Proof.
  assert (numeric_fields no_number (input_dict minus_one_form)
            (NInt (-1)) (NFloat (FNum 70)) (NFloat (FNum (-70))) (NInt 0))
    as Hn by (repeat split; reflexivity).
  assert (scaled example_scaler (NInt (-1)) (NFloat (FNum 70))
            (NFloat (FNum (-70)))
            (FNum (-11 # 8)) (FNum (1 # 6)) (FNum (-1175 # 1133))) as Hs
    by reflexivity.
  split; [exact Hn |]. split; [exact Hs |].
  destruct (ratio_at_minus_one no_number no_label example_scaler
              (input_dict minus_one_form) _ _ _ _ _ _ _ (-70)%Q
              Hn Hs eq_refl eq_refl)
    as (out & P & _ & N & _).
  exists out. split; [exact P |]. apply N. reflexivity.
Defined.

Lemma supplied_indicators_honoured_witness :
  numeric_fields no_number (input_dict high_risk_form)
                 (NInt 3) (NFloat (FNum 95)) (NFloat (FNum 285)) (NInt 0)
  /\ scaled example_scaler (NInt 3) (NFloat (FNum 95)) (NFloat (FNum 285))
            (FNum (-29 # 24)) (FNum 1) (FNum (-1995 # 2266))
  /\ exists out,
       preprocess_input no_number no_label example_scaler
         (input_df_with (input_dict high_risk_form)
            [ ("InternetService_Fiber optic", VNum (NInt 1));
              ("InternetService_No", VNum (NInt 0));
              ("PaymentMethod_Bank transfer (automatic)", VNum (NInt 0));
              ("PaymentMethod_Credit card (automatic)", VNum (NInt 0));
              ("PaymentMethod_Electronic check", VNum (NInt 1));
              ("PaymentMethod_Mailed check", VNum (NInt 0)) ]) = Ok out
       /\ lookup "HighRiskProfile" out = int_cell 1
       /\ lookup "FiberNoAddons" out = int_cell 1.
Proof.
  assert (numeric_fields no_number (input_dict high_risk_form)
            (NInt 3) (NFloat (FNum 95)) (NFloat (FNum 285)) (NInt 0)) as Hn
    by (repeat split; reflexivity).
  assert (scaled example_scaler (NInt 3) (NFloat (FNum 95))
            (NFloat (FNum 285))
            (FNum (-29 # 24)) (FNum 1) (FNum (-1995 # 2266))) as Hs
    by reflexivity.
  split; [exact Hn |]. split; [exact Hs |].
  destruct (supplied_indicators_honoured no_number no_label example_scaler
              (input_dict high_risk_form) _ _ _ _ _ _ _
              (VNum (NInt 1)) (VNum (NInt 0)) (VNum (NInt 0))
              (VNum (NInt 0)) (VNum (NInt 1)) (VNum (NInt 0)) Hn Hs)
    as (out & P & _ & _ & _ & _ & _ & _ & H & _ & _ & F & _).
  exists out. split; [exact P |]. split; [exact H | exact F].
Defined.

Lemma form_row_witness :
  scaled example_scaler (NInt 12) (NFloat (FNum 70)) (NFloat (FNum 840))
         (FNum (-5 # 6)) (FNum (1 # 6)) (FNum (-720 # 1133))
  /\ selectable example_form = true
  /\ exists out,
       preprocess_input no_number no_label example_scaler
         (input_df (input_dict example_form)) = Ok out
       /\ lookup "TotalServices" out = int_cell 3.
Proof.
  split; [exact example_scaled |]. split; [reflexivity |].
  destruct (form_row no_number no_label example_scaler example_form
              _ _ _ example_scaled)
    as (out & P & _ & _ & _ & S).
  exists out. split; [exact P |].
  destruct (S eq_refl) as (_ & _ & T & _). exact T.
Defined.

Lemma form_ratios_witness :
  scaled example_scaler (NInt 12) (NFloat (FNum 70)) (NFloat (FNum 840))
         (FNum (-5 # 6)) (FNum (1 # 6)) (FNum (-720 # 1133))
  /\ 0 <= form_tenure example_form < Int64.max_signed
  /\ exists out p q,
       preprocess_input no_number no_label example_scaler
         (input_df (input_dict example_form)) = Ok out
       /\ lookup "ChargePerTenureMonth" out = Some (VNum (NFloat (FNum p)))
       /\ lookup "ChargeTenureRatio" out = Some (VNum (NFloat (FNum q)))
       /\ (p == 840 # 13)%Q /\ (q == 70 # 13)%Q.
Proof.
  split; [exact example_scaled |].
  split; [split; [discriminate | reflexivity] |].
  destruct (form_ratios no_number no_label example_scaler example_form
              _ _ _ example_scaled)
    as (out & p & q & P & Hp & Hq & Ep & Eq & _);
    [discriminate | reflexivity |].
  exists out, p, q. repeat split; assumption.
Defined.

Lemma recommendations_and_row_witness :
  scaled example_scaler (NInt 12) (NFloat (FNum 70)) (NFloat (FNum 840))
         (FNum (-5 # 6)) (FNum (1 # 6)) (FNum (-720 # 1133))
  /\ exists out,
       preprocess_input no_number no_label example_scaler
         (input_df (input_dict example_form)) = Ok out
       /\ lookup "IsNewCustomer" out = int_cell 1
       /\ recommendations (will_churn (FNum (1 # 4)) (FNum (1 # 2)))
            example_form = None
       /\ exists recs,
            recommendations (will_churn (FNum (3 # 4)) (FNum (1 # 2)))
              example_form = Some recs
            /\ ~ In AccountManager recs.
Proof.
  split; [exact example_scaled |].
  destruct (recommendations_and_row no_number no_label example_scaler
              example_form (FNum (1 # 4)) (FNum (1 # 2)) _ _ _
              example_scaled)
    as (out & P & B & _ & N & _).
  exists out. split; [exact P |]. split; [apply N; discriminate |].
  split; [exact (B eq_refl) |].
  destruct (recommendations_and_row no_number no_label example_scaler
              example_form (FNum (3 # 4)) (FNum (1 # 2)) _ _ _
              example_scaled)
    as (out' & _ & _ & R & _).
  destruct (R eq_refl) as (recs & E & _ & A & _).
  exists recs. split; [exact E |].
  intros H. apply A in H. discriminate H.
Defined.
